(** * Chatbot_Application front end: upload pipeline and message API

    A shallow embedding of the TypeScript units of the front end:

    - [types/upload.ts]: the upload model and response types;
    - [lib/uploadDocument.ts]: [ALLOWED], [getExt], [createUploadFormData]
      and [uploadDocument];
    - [app/admin/upload/page.tsx]: the [handleSubmit] handler of the upload
      form;
    - the RTK Query [messageApi]: the response transformers, the
      [createMessage] query function and the tag declarations of the
      endpoints.

    JavaScript strings are modelled by [string] (one [ascii] per code unit,
    so the model covers names made of 8-bit code units), page numbers by
    [Z], [sessionStorage] by a [gmap string string], and every call that
    leaves the process (storage lookup, HTTP post, console) is recorded in
    a trace of [Event]s. *)

From Stdlib Require Import ZArith String Ascii DecimalString.
From stdpp Require Import base option list gmap strings fin_maps.

Local Open Scope string_scope.
Local Open Scope Z_scope.

(** ** JavaScript string primitives used by the sources *)

Module JsString.

(** [s.length] *)
Definition js_length (s : string) : Z := Z.of_nat (String.length s).

(** Left-to-right scan keeping the index of the last occurrence seen. *)
Fixpoint lastIndexOf_from (c : ascii) (s : string) (i last : Z) : Z :=
  match s with
  | EmptyString => last
  | String a s' =>
      lastIndexOf_from c s' (i + 1) (if Ascii.eqb a c then i else last)
  end.

(** [s.lastIndexOf(c)] for a one-character search string: the index of the
    last occurrence, [-1] when there is none. *)
Definition lastIndexOf (c : ascii) (s : string) : Z :=
  lastIndexOf_from c s 0 (-1).

Fixpoint drop_chars (n : nat) (s : string) : string :=
  match n, s with
  | O, _ => s
  | S n', String _ s' => drop_chars n' s'
  | S _, EmptyString => EmptyString
  end.

(** [s.slice(i)]: a negative index counts from the end, and the start is
    clamped to the bounds of the string. *)
Definition slice (i : Z) (s : string) : string :=
  let len := js_length s in
  let start := if i <? 0 then Z.max (len + i) 0 else Z.min i len in
  drop_chars (Z.to_nat start) s.

(** The upper-case letters among the 8-bit code units: A-Z, and the
    Latin-1 letters U+00C0-U+00DE without the multiplication sign U+00D7. *)
Definition is_upper (a : ascii) : bool :=
  let n := nat_of_ascii a in
  ((65 <=? n)%nat && (n <=? 90)%nat)
  || ((192 <=? n)%nat && (n <=? 214)%nat)
  || ((216 <=? n)%nat && (n <=? 222)%nat).

Definition lower_char (a : ascii) : ascii :=
  if is_upper a then ascii_of_nat (nat_of_ascii a + 32) else a.

(** [s.toLowerCase()]: each upper-case code unit is replaced by its
    lower-case letter, 32 places up. *)
Fixpoint toLowerCase (s : string) : string :=
  match s with
  | EmptyString => EmptyString
  | String a s' => String (lower_char a) (toLowerCase s')
  end.

(** The integers that a JavaScript number holds exactly:
    [Number.isSafeInteger(n)]. *)
Definition safe_integer (n : Z) : Prop := - (2 ^ 53 - 1) <= n <= 2 ^ 53 - 1.

(** [String(n)] for a safe integer: plain decimal notation. Numbers are
    modelled by [Z]; outside the safe integers (fractions, and the range
    from 1e21 on where JavaScript prints an exponent) the model says
    nothing about the code, and the properties of the printed page
    numbers are stated under [safe_integer]. *)
Definition String_of (n : Z) : string := NilZero.string_of_int (Z.to_int n).

(** Truthiness of a string: only the empty string is falsy. *)
Definition truthy (s : string) : bool :=
  match s with EmptyString => false | String _ _ => true end.

(** [s.includes(c)] for a one-character search string; used to state the
    properties of [lastIndexOf]. *)
Fixpoint has_char (c : ascii) (s : string) : bool :=
  match s with
  | EmptyString => false
  | String a s' => Ascii.eqb a c || has_char c s'
  end.

End JsString.

(** ** Values that may be [undefined] or [null] *)

(** The type of a field declared [x?: T | null]. *)
Inductive Nullable (A : Type) : Type :=
| undefined
| null
| value (a : A).
Arguments undefined {A}.
Arguments null {A}.
Arguments value {A} a.

(** [x ?? d] on an optional field [x?: T]. *)
Definition nullish_or {A} (x : option A) (d : A) : A :=
  match x with Some a => a | None => d end.

(** ** The effect monad: results, exceptions and the trace of outside calls *)

(** A value that is neither [undefined] nor [null], seen through the two
    properties the code reads from a caught value: [message], and the
    [response] that axios attaches to a rejected request, whose body may
    carry a [message]. A property that is absent is [None]. *)
Record ErrorBody := { body_message : option string }.
Record ErrorResponse := { err_status : Z; err_data : option ErrorBody }.
Record JsError := { err_message : option string; err_response : option ErrorResponse }.

(** What a [catch (error: any)] can receive: a promise may be rejected, and
    a [throw] may be given, any value, [undefined] and [null] included. *)
Inductive Thrown :=
| thrown_undefined
| thrown_null
| thrown_value (e : JsError).

(** [new Error(msg)] *)
Definition new_Error (msg : string) : Thrown :=
  thrown_value {| err_message := Some msg; err_response := None |}.

(** [err?.message] *)
Definition thrown_message (err : Thrown) : option string :=
  match err with
  | thrown_undefined | thrown_null => None
  | thrown_value e => err_message e
  end.

Inductive Completion (A : Type) : Type :=
| Return (a : A)
| Throw (e : Thrown).
Arguments Return {A} a.
Arguments Throw {A} e.

Record File := { name : string; blob : list Byte.byte }.

(** A [FormData] is the ordered list of the entries appended to it. *)
Inductive FormDataEntryValue :=
| FileValue (f : File)
| StringValue (s : string).

Definition FormData := list (string * FormDataEntryValue).

(** [fd.append(k, v)] *)
Definition append (fd : FormData) (k : string) (v : FormDataEntryValue) : FormData :=
  (fd ++ [(k, v)])%list.

(** [fd.getAll(k)]: the values appended under the name [k], in order. *)
Definition FormData_getAll (fd : FormData) (k : string) : list FormDataEntryValue :=
  snd <$> List.filter (fun e => String.eqb (fst e) k) fd.

(** [fd.has(k)] *)
Definition FormData_has (fd : FormData) (k : string) : bool :=
  existsb (fun e => String.eqb (fst e) k) fd.

(** [[...fd.keys()]] *)
Definition FormData_keys (fd : FormData) : list string := fst <$> fd.

(** types/upload.ts *)
Module UploadTypes.

Record UploadFileModel := {
  file : File;
  start_page : option Z;
  end_page : Nullable Z;
  topic : option string
}.

(** The page numbers of the model, where present, are safe integers. *)
Definition safe_pages (data : UploadFileModel) : Prop :=
  (forall n, start_page data = Some n -> JsString.safe_integer n) /\
  (forall e, end_page data = value e -> JsString.safe_integer e).

(** [UploadSuccess] and [UploadError] are the same shape, [{ message }];
    [UploadResponse] is their union. The type is only asserted of what the
    backend sends, so a value of it as met at run time is either absent
    ([undefined] or [null], a reply without a body) or a value whose
    [message] may itself be absent. *)
Inductive UploadResponse :=
| response_absent
| response_body (message : option string).

(** The extensions named by the type [allowedExt]. *)
Definition allowedExt : list string := [".pdf"; ".docx"; ".pptx"; ".ppt"].

End UploadTypes.

Abbreviation UploadFileModel := UploadTypes.UploadFileModel.
Abbreviation UploadResponse := UploadTypes.UploadResponse.

Module Axios.
Record Request := {
  url : string;
  body : FormData;
  headers : list (string * string)
}.

Record Response := { status : Z; data : UploadResponse }.
End Axios.

Abbreviation AxiosRequest := Axios.Request.
Abbreviation AxiosResponse := Axios.Response.

Inductive Event :=
| GetItem (key : string)
| Post (req : AxiosRequest)
| ConsoleError (label : string) (e : Thrown)
| Invoke_uploadDocument (arg : UploadFileModel).

(** What the code reads from outside: the session storage (taken to be
    available), the answer of the HTTP client to each request, and the
    text the engine gives to the [TypeError] it raises when a property of
    [undefined] or [null] is read. *)
Record Env := {
  sessionStorage : gmap string string;
  axiosInstance_post : AxiosRequest -> Completion AxiosResponse;
  type_error_text : string
}.

Definition M (A : Type) : Type := Env -> Completion A * list Event.

#[global] Instance M_ret : MRet M := fun A a _ => (Return a, []).

#[global] Instance M_bind : MBind M := fun A B f m env =>
  match m env with
  | (Return a, t) => let '(r, t') := f a env in (r, (t ++ t')%list)
  | (Throw e, t) => (Throw e, t)
  end.

Definition throw {A} (e : Thrown) : M A := fun _ => (Throw e, []).

(** Reading a property of [undefined] or [null]. *)
Definition TypeError {A} : M A :=
  fun env => (Throw (new_Error (type_error_text env)), []).

(** [try { body } catch (error) { handler error }] *)
Definition try_catch {A} (body : M A) (handler : Thrown -> M A) : M A :=
  fun env =>
    match body env with
    | (Return a, t) => (Return a, t)
    | (Throw e, t) => let '(r, t') := handler e env in (r, (t ++ t')%list)
    end.

(** [sessionStorage.getItem(key)] *)
Definition getItem (key : string) : M (option string) :=
  fun env => (Return (sessionStorage env !! key), [GetItem key]).

(** [await axiosInstance.post(url, body, { headers })] *)
Definition post (req : AxiosRequest) : M AxiosResponse :=
  fun env => (axiosInstance_post env req, [Post req]).

(** [console.error(label, e)] *)
Definition console_error (label : string) (e : Thrown) : M unit :=
  fun _ => (Return tt, [ConsoleError label e]).

(** Record an event in the trace. *)
Definition emit (ev : Event) : M unit := fun _ => (Return tt, [ev]).

(** The number of HTTP requests in a trace. *)
Definition is_Post (ev : Event) : bool :=
  match ev with Post _ => true | _ => false end.

Definition network_calls (t : list Event) : nat := length (List.filter is_Post t).

Definition is_GetItem (ev : Event) : bool :=
  match ev with GetItem _ => true | _ => false end.

Definition credential_lookups (t : list Event) : nat :=
  length (List.filter is_GetItem t).

(** ** lib/uploadDocument.ts *)

Module Upload.
Import JsString UploadTypes.

Definition ALLOWED : gset string := {[ ".pdf"; ".ppt"; ".docx" ]}.

(** [ALLOWED.has(ext)] *)
Definition ALLOWED_has (ext : string) : bool := bool_decide (ext ∈ ALLOWED).

Definition getExt (name : string) : string :=
  let i := lastIndexOf "." name in
  if 0 <=? i then toLowerCase (slice i name) else EmptyString.

Definition createUploadFormData (data : UploadFileModel) : FormData :=
  let fd : FormData := [] in
  let fd := append fd "file" (FileValue (file data)) in
  let fd := append fd "start_page"
              (StringValue (String_of (nullish_or (start_page data) 1))) in
  let fd := match end_page data with
            | value e => append fd "end_page" (StringValue (String_of e))
            | undefined | null => fd
            end in
  let fd := append fd "topic" (StringValue (nullish_or (topic data) "general")) in
  fd.

(** [error.response?.data?.message] on a value that is not nullish *)
Definition response_message (error : JsError) : option string :=
  r ← err_response error; d ← err_data r; body_message d.

(** The request posted for [data] under the token [tok]: endpoint, form
    data and headers. *)
Definition upload_request (data : UploadFileModel) (tok : string) : AxiosRequest :=
  {| Axios.url := "/rag/upload";
     Axios.body := createUploadFormData data;
     Axios.headers := [("Authorization", "Bearer " +:+ tok);
                       ("Content-Type", "multipart/form-data")] |}.

Definition invalid_type : UploadResponse :=
  response_body (Some "Invalid file type. Only PDF, PPT, and DOCX files are allowed.").

Definition no_token : Thrown := new_Error "No token found".

(** [if (!token)]: [token] is [null] when nothing is stored, and the empty
    string is falsy as well. In the [catch] block [error.response] is read
    without a guard on [error] itself, so a caught [undefined] or [null]
    raises a [TypeError] there, after the [console.error]. *)
Definition uploadDocument (data : UploadFileModel) : M UploadResponse :=
  let ext := getExt (name (file data)) in
  if negb (ALLOWED_has ext) then
    mret invalid_type
  else
    token ← getItem "access_token";
    match token with
    | Some tok =>
        if truthy tok then
          try_catch
            (response ← post (upload_request data tok);
             mret (Axios.data response))
            (fun error =>
               _ ← console_error "Upload error:" error;
               match error with
               | thrown_undefined | thrown_null => TypeError
               | thrown_value e =>
                   mret (response_body
                           (Some (nullish_or (response_message e)
                                    "Unexpected error occurred")))
               end)
        else throw no_token
    | None => throw no_token
    end.

(** What the [catch] block of [uploadDocument] makes of a caught value:
    a [TypeError] for [undefined] and [null], a message otherwise. *)
Definition caught (env : Env) (error : Thrown) : Completion UploadResponse :=
  match error with
  | thrown_undefined | thrown_null => Throw (new_Error (type_error_text env))
  | thrown_value e =>
      Return (response_body
                (Some (nullish_or (response_message e) "Unexpected error occurred")))
  end.

(** The value read as [token] is falsy: no item is stored, or the stored
    item is the empty string. *)
Definition no_credential (env : Env) : Prop :=
  match sessionStorage env !! "access_token" with
  | None => True
  | Some tok => truthy tok = false
  end.

End Upload.

(** ** app/admin/upload/page.tsx *)

Module AdminUploadPage.

Inductive Variant := variant_success | variant_error | variant_empty.

(** The component state held by the [useState] hooks. *)
Record State := {
  file : option File;
  startPage : Z;
  endPage : option Z;
  topic : string;
  submitting : bool;
  message : string;
  variant : Variant
}.

Definition setMessage (m : string) (st : State) : State :=
  {| file := file st; startPage := startPage st; endPage := endPage st;
     topic := topic st; submitting := submitting st;
     message := m; variant := variant st |}.

Definition setVariant (v : Variant) (st : State) : State :=
  {| file := file st; startPage := startPage st; endPage := endPage st;
     topic := topic st; submitting := submitting st;
     message := message st; variant := v |}.

Definition setSubmitting (b : bool) (st : State) : State :=
  {| file := file st; startPage := startPage st; endPage := endPage st;
     topic := topic st; submitting := b;
     message := message st; variant := variant st |}.

(** The argument object built at the call of [uploadDocument]. *)
Definition upload_argument (f : File) (st : State) : UploadFileModel :=
  {| UploadTypes.file := f;
     UploadTypes.start_page := Some (startPage st);
     UploadTypes.end_page :=
       match endPage st with Some e => value e | None => null end;
     UploadTypes.topic := Some (topic st) |}.

(** The three messages of the local checks. *)
Definition select_a_file : string :=
  "Please select a file (.pdf, .pptx, .ppt, .docx).".
Definition start_too_small : string := "Start page must be at least 1.".
Definition end_before_start : string :=
  "End page must be greater than or equal to start page.".

(** [handleSubmit]. The trace records the call of [uploadDocument] (an
    [Invoke_uploadDocument] event) before the events of the call itself.
    Reading [res.message] of an absent [res] raises a [TypeError] inside
    the [try], after [setVariant("success")]; the [catch] then sets the
    error variant. *)
Definition handleSubmit (st : State) : M State :=
  let st := setVariant variant_empty (setMessage EmptyString st) in
  match file st with
  | None =>
      mret (setMessage select_a_file (setVariant variant_error st))
  | Some f =>
      if startPage st <? 1 then
        mret (setMessage start_too_small (setVariant variant_error st))
      else if match endPage st with
              | Some e => e <? startPage st
              | None => false
              end then
        mret (setMessage end_before_start (setVariant variant_error st))
      else
        st' ← try_catch
                (let st := setSubmitting true st in
                 _ ← emit (Invoke_uploadDocument (upload_argument f st));
                 res ← Upload.uploadDocument (upload_argument f st);
                 let st := setVariant variant_success st in
                 match res with
                 | UploadTypes.response_absent => TypeError
                 | UploadTypes.response_body m =>
                     mret (setMessage (nullish_or m "Upload completed.") st)
                 end)
                (fun err =>
                   mret (setMessage (nullish_or (thrown_message err)
                                       "Unexpected error during upload.")
                           (setVariant variant_error (setSubmitting true st))));
        mret (setSubmitting false st')
  end.

(** The page range of the state violates the rule of the form: the start
    page is below 1, or an end page is present and below the start page. *)
Definition bad_range (st : State) : Prop :=
  startPage st < 1 \/ exists e, endPage st = Some e /\ e < startPage st.

Definition is_Invoke (ev : Event) : bool :=
  match ev with Invoke_uploadDocument _ => true | _ => false end.

Definition upload_invocations (t : list Event) : list Event :=
  List.filter is_Invoke t.

(** The page numbers of the form are safe integers. *)
Definition safe_range (st : State) : Prop :=
  JsString.safe_integer (startPage st) /\
  forall e, endPage st = Some e -> JsString.safe_integer e.

(** The page range of the state passes the two checks of the form. *)
Definition good_range (st : State) : Prop :=
  1 <= startPage st /\ forall e, endPage st = Some e -> startPage st <= e.

End AdminUploadPage.

(** ** The RTK Query message API *)

Module MessageApi.

(** A message as the backend sends it. *)
Module Wire.
Record Message := {
  id : string;
  conversation : string;
  sender_type : string;
  content : string;
  created_at : string
}.
End Wire.

(** [new Date(s)], kept as the string it was built from. *)
Inductive Date := new_Date (s : string).

(** [Message] of types/message: the domain message. *)
Record Message := {
  id : string;
  conversationId : string;
  role : string;
  content : string;
  createdAt : Date
}.

(** [MessageSimple], the argument of [createMessage]. *)
Module Simple.
Record MessageSimple := {
  conversationId : string;
  role : string;
  content : string
}.
End Simple.
Abbreviation MessageSimple := Simple.MessageSimple.

(** The body posted to the three creation routes. *)
Record Payload := {
  conversation_id : string;
  sender_type : string;
  payload_content : string
}.

Record FetchArgs := {
  url : string;
  method : string;
  body : option Payload
}.

(** The error object of [fetchBaseQuery]; being an object it is truthy. *)
Record FetchBaseQueryError := { status : Z; error_text : string }.

(** The result of a base query: [{ data }] or [{ error }]. *)
Inductive QueryReturnValue (D : Type) : Type :=
| Data (d : D)
| Error (e : FetchBaseQueryError).
Arguments Data {D} d.
Arguments Error {D} e.

(** [("error" in r && r.error)]: the error of a result, if it has one. *)
Definition error_of {D} (r : QueryReturnValue D) : option FetchBaseQueryError :=
  match r with Error e => Some e | Data _ => None end.

(** [(r as any).data] on a result that is not an error. *)
Definition data_of {D} (r : QueryReturnValue D) : option D :=
  match r with Data d => Some d | Error _ => None end.

(** A response body [{ data: msg }]. *)
Record Envelope (A : Type) := { data : A }.
Arguments data {A} _.

(** The base query as a function of its arguments. A successful answer is
    taken to carry the body [{ data: msg }] of a message, the shape that
    [toMessage] reads; the code has no guard for a success with another
    body, and the model does not cover it. *)
Definition BaseQuery := FetchArgs -> QueryReturnValue (Envelope Wire.Message).

(** [body.role === "user" ? "User" : "Bot"] *)
Definition wire_of_role (role : string) : string :=
  if String.eqb role "user" then "User" else "Bot".

(** [msg.sender_type === "User" ? "user" : "ai"] *)
Definition role_of_wire (sender_type : string) : string :=
  if String.eqb sender_type "User" then "user" else "ai".

(** The object literal shared by [getMessages], [getMessage] and
    [toMessage]. *)
Definition message_of_wire (msg : Wire.Message) : Message :=
  {| id := Wire.id msg;
     conversationId := Wire.conversation msg;
     role := role_of_wire (Wire.sender_type msg);
     content := Wire.content msg;
     createdAt := new_Date (Wire.created_at msg) |}.

(** [transformResponse] of [getMessages] *)
Definition getMessages_transformResponse
    (response : Envelope (list Wire.Message)) : list Message :=
  message_of_wire <$> data response.

(** [transformResponse] of [getMessage] *)
Definition getMessage_transformResponse
    (response : Envelope Wire.Message) : Message :=
  let msg := data response in message_of_wire msg.

(** [toMessage] inside [createMessage] *)
Definition toMessage (resp : Envelope Wire.Message) : Message :=
  let msg := data resp in message_of_wire msg.

Record CreateAllResult := {
  rag : Message;
  raw : Message;
  rawModel : Message
}.

(** *** [Promise.all] *)

(** One promise settles: its value is stored at its own index. *)
Definition settle {A} (promises : list A) (buffer : list (option A)) (i : nat)
  : list (option A) :=
  match promises !! i with
  | Some v => <[i := Some v]> buffer
  | None => buffer
  end.

(** The values of a buffer whose slots are all filled. *)
Fixpoint collect {A} (buffer : list (option A)) : option (list A) :=
  match buffer with
  | [] => Some []
  | None :: _ => None
  | Some v :: rest => (v ::.) <$> collect rest
  end.

(** [await Promise.all(promises)] when the promises are fulfilled in the
    order [settle_order] (a list of indices): the values in the order of
    the array, or [None] while some promise is still pending. *)
Definition Promise_all {A} (promises : list A) (settle_order : list nat)
  : option (list A) :=
  collect (foldl (settle promises) (replicate (length promises) None) settle_order).

(** *** [createMessage] *)

Definition createMessage_payload (body : MessageSimple) : Payload :=
  {| conversation_id := Simple.conversationId body;
     sender_type := wire_of_role (Simple.role body);
     payload_content := Simple.content body |}.

(** The arguments of the three [baseQuery] calls, in the order of the
    array [requests]: rag, raw, rawModel. *)
Definition createMessage_requests (body : MessageSimple) : list FetchArgs :=
  let payload := createMessage_payload body in
  [ {| url := "/messages/"; method := "POST"; body := Some payload |};
    {| url := "/messages/raw/"; method := "POST"; body := Some payload |};
    {| url := "/messages/raw-model/"; method := "POST"; body := Some payload |} ].

(** [queryFn] of [createMessage]; [None] when the join never completes. *)
Definition createMessage_queryFn (baseQuery : BaseQuery) (settle_order : list nat)
    (body : MessageSimple) : option (QueryReturnValue CreateAllResult) :=
  let requests := baseQuery <$> createMessage_requests body in
  results ← Promise_all requests settle_order;
  match results with
  | [ragRes; rawRes; rawModelRes] =>
      match error_of ragRes, error_of rawRes, error_of rawModelRes with
      | Some e, _, _ => Some (Error e)
      | None, Some e, _ => Some (Error e)
      | None, None, Some e => Some (Error e)
      | None, None, None =>
          r1 ← data_of ragRes; r2 ← data_of rawRes; r3 ← data_of rawModelRes;
          Some (Data {| rag := toMessage r1;
                        raw := toMessage r2;
                        rawModel := toMessage r3 |})
      end
  | _ => None
  end.

(** The error of the first result, in the order of the list, that is an
    error. *)
Definition first_error {D} (results : list (QueryReturnValue D))
  : option FetchBaseQueryError :=
  head (omap error_of results).

(** *** Tags *)

Inductive Endpoint :=
| getMessageIds | getMessages | getMessage | createMessage | deleteMessage.

Definition tagTypes : list string := ["Message"].

Definition providesTags (ep : Endpoint) : list string :=
  match ep with
  | getMessageIds | getMessages | getMessage => ["Message"]
  | createMessage | deleteMessage => []
  end.

Definition invalidatesTags (ep : Endpoint) : list string :=
  match ep with
  | createMessage | deleteMessage => ["Message"]
  | getMessageIds | getMessages | getMessage => []
  end.

Definition is_mutation (ep : Endpoint) : bool :=
  match ep with
  | createMessage | deleteMessage => true
  | getMessageIds | getMessages | getMessage => false
  end.

(** *** The other endpoints *)

(** [query] of [getMessageIds] *)
Definition getMessageIds_query (conversationId : string) : FetchArgs :=
  {| url := "/messages/conversation/" +:+ conversationId +:+ "/ids";
     method := "GET"; body := None |}.

(** [transformResponse] of [getMessageIds] *)
Definition getMessageIds_transformResponse (response : Envelope (list string))
  : list string :=
  data response.

(** [query] of [getMessages] *)
Definition getMessages_query (conversationId : string) : FetchArgs :=
  {| url := "/messages/conversation/" +:+ conversationId;
     method := "GET"; body := None |}.

(** [query] of [getMessage] *)
Definition getMessage_query (messageId : string) : FetchArgs :=
  {| url := "/messages/" +:+ messageId; method := "GET"; body := None |}.

(** [query] of [deleteMessage] *)
Definition deleteMessage_query (messageId : string) : FetchArgs :=
  {| url := "/messages/" +:+ messageId; method := "DELETE"; body := None |}.

(** *** [prepareHeaders] *)

Section PrepareHeaders.
(** The [Headers] object of the request and its [set] method, which either
    yields the updated headers or throws. *)
Context {Headers : Type}.
Variable Headers_set : Headers -> string -> string -> Completion Headers.

(** A step that touches nothing outside: it completes as [c] does. *)
Definition completes {A} (c : Completion A) : M A := fun _ => (c, []).

(** [prepareHeaders] of the base query *)
Definition prepareHeaders (headers : Headers) : M Headers :=
  token ← getItem "access_token";
  match token with
  | Some tok =>
      if JsString.truthy tok then
        completes (Headers_set headers "Authorization" ("Bearer " +:+ tok))
      else completes (Return headers)
  | None => completes (Return headers)
  end.
End PrepareHeaders.

(** A backend that stores what it is sent: the answer to a request with a
    body is a message with the conversation, sender type and content of
    that body. *)
Definition echoes (baseQuery : BaseQuery) : Prop :=
  forall args p,
    body args = Some p ->
    exists m,
      baseQuery args = Data {| data := m |} /\
      Wire.conversation m = conversation_id p /\
      Wire.sender_type m = sender_type p /\
      Wire.content m = payload_content p.

End MessageApi.

(** ** The result cache *)

(** The tag-indexed query cache is the engine of the RTK Query library; the
    sources only declare, per endpoint, the tags it provides or invalidates.
    The engine is therefore modelled from the contract of the Result Cache
    component: a map from tag, then key, to an entry that can be marked
    stale. The timestamp of an entry is not kept: no operation of the
    contract reads it. *)
Module ResultCache.
Import MessageApi.

Section Cache.
Context {V : Type}.

Record Entry := { entry_value : V; stale : bool }.

Definition mark_stale (e : Entry) : Entry :=
  {| entry_value := entry_value e; stale := true |}.

(** Modelled from the spec: the cache engine is not in the sources.
    [get(tag, key)] returns the cached value if present and not
    invalidated, and signals a miss otherwise. *)
Definition get (tag key : string) (c : gmap string (gmap string Entry))
  : option V :=
  e ← (c !! tag) ≫= (.!! key);
  if stale e then None else Some (entry_value e).

(** Modelled from the spec: the cache engine is not in the sources.
    [put(tag, key, value)] stores or replaces an entry. *)
Definition put (tag key : string) (v : V) (c : gmap string (gmap string Entry))
  : gmap string (gmap string Entry) :=
  <[tag := <[key := {| entry_value := v; stale := false |}]>
             (default ∅ (c !! tag))]> c.

(** Modelled from the spec: the cache engine is not in the sources.
    [invalidate(tag)] marks every entry under the tag as stale. *)
Definition invalidate (tag : string) (c : gmap string (gmap string Entry))
  : gmap string (gmap string Entry) :=
  alter (fmap mark_stale) tag c.

(** Modelled from the spec: the cache engine is not in the sources. A read
    through the cache for a query endpoint yields the value, the cache
    afterwards and the number of fetches performed: on a miss the caller
    fetches and then puts, and a failed fetch does not populate the cache.
    An entry is served only if it is fresh under every tag the endpoint
    provides. *)
Definition query (ep : Endpoint) (key : string) (fetch : string -> option V)
    (c : gmap string (gmap string Entry))
  : option V * gmap string (gmap string Entry) * nat :=
  match mapM (fun tag => get tag key c) (providesTags ep) with
  | Some (v :: _) => (Some v, c, 0%nat)
  | _ =>
      match fetch key with
      | Some v => (Some v, foldr (fun tag => put tag key v) c (providesTags ep), 1%nat)
      | None => (None, c, 1%nat)
      end
  end.

(** Modelled from the spec: the cache engine is not in the sources. The
    cache after a mutation of endpoint [ep] has completed with result [r]:
    on success every tag the endpoint invalidates is invalidated before
    the result is handed back. *)
Definition after_mutation {D} (ep : Endpoint) (r : QueryReturnValue D)
    (c : gmap string (gmap string Entry)) : gmap string (gmap string Entry) :=
  match r with
  | Data _ => foldr invalidate c (invalidatesTags ep)
  | Error _ => c
  end.

(** The [createMessage] mutation: the query function, then the
    invalidation. *)
Definition createMessage_mutation (baseQuery : BaseQuery)
    (settle_order : list nat) (body : MessageSimple)
    (c : gmap string (gmap string Entry))
  : option (QueryReturnValue CreateAllResult * gmap string (gmap string Entry)) :=
  r ← createMessage_queryFn baseQuery settle_order body;
  Some (r, after_mutation createMessage r c).

(** The [deleteMessage] mutation: one DELETE request, then the
    invalidation. *)
Definition deleteMessage_mutation (baseQuery : BaseQuery) (messageId : string)
    (c : gmap string (gmap string Entry))
  : QueryReturnValue (Envelope Wire.Message) * gmap string (gmap string Entry) :=
  let r := baseQuery {| url := "/messages/" +:+ messageId;
                        method := "DELETE"; body := None |} in
  (r, after_mutation deleteMessage r c).

(** Every read under the tag [Message] misses: no key has a fresh entry,
    and a query of any endpoint that provides the tag performs a
    fetch. *)
Definition misses_Message (c : gmap string (gmap string Entry)) : Prop :=
  forall key,
    get "Message" key c = None /\
    forall ep fetch,
      In "Message" (providesTags ep) -> snd (query ep key fetch c) = 1%nat.

End Cache.

Arguments Entry V : clear implicits.

End ResultCache.


(** ** Concrete inputs used by the examples *)

Module Samples.
Import UploadTypes.

(** An HTTP client without connectivity: every request is rejected. *)
Definition offline (req : AxiosRequest) : Completion AxiosResponse :=
  Throw (new_Error "Network Error").

(** A backend that answers every request with an error body. *)
Definition refusing (req : AxiosRequest) : Completion AxiosResponse :=
  Throw (thrown_value
           {| err_message := Some "Request failed with status code 413";
              err_response :=
                Some {| err_status := 413;
                        err_data := Some {| body_message := Some "File too large" |} |} |}).

Definition env_no_token : Env :=
  {| sessionStorage := ∅; axiosInstance_post := offline;
     type_error_text := "Cannot read properties of undefined" |}.

Definition env_token : Env :=
  {| sessionStorage := {[ "access_token" := "abc" ]};
     axiosInstance_post := refusing;
     type_error_text := "Cannot read properties of undefined" |}.

Definition upload_of (n : string) : UploadFileModel :=
  {| file := {| name := n; blob := [] |};
     start_page := None; end_page := undefined; topic := None |}.

(** An upload of pages 3 to 12 of [doc.pdf]. *)
Definition pages_3_to_12 : UploadFileModel :=
  {| file := {| name := "doc.pdf"; blob := [] |};
     start_page := Some 3; end_page := value 12; topic := None |}.


(** A message to create, and the message the backend stores for it. *)
Definition hello (role : string) : MessageApi.MessageSimple :=
  {| MessageApi.Simple.conversationId := "c1";
     MessageApi.Simple.role := role;
     MessageApi.Simple.content := "hello" |}.

Definition stored (id : string) (p : MessageApi.Payload)
  : MessageApi.Envelope MessageApi.Wire.Message :=
  {| MessageApi.data :=
       {| MessageApi.Wire.id := id;
          MessageApi.Wire.conversation := MessageApi.conversation_id p;
          MessageApi.Wire.sender_type := MessageApi.sender_type p;
          MessageApi.Wire.content := MessageApi.payload_content p;
          MessageApi.Wire.created_at := "2025-01-01T00:00:00Z" |} |}.

Definition failure (code : Z) (text : string) : MessageApi.FetchBaseQueryError :=
  {| MessageApi.status := code; MessageApi.error_text := text |}.

(** The body seen by the backend for a request without one. *)
Definition no_body : MessageApi.Payload :=
  {| MessageApi.conversation_id := EmptyString;
     MessageApi.sender_type := EmptyString;
     MessageApi.payload_content := EmptyString |}.

(** Three backends: all routes succeed; only the raw route fails; every
    route fails with an error of its own. *)
Definition all_ok : MessageApi.BaseQuery := fun args =>
  match MessageApi.body args with
  | Some p => MessageApi.Data (stored (MessageApi.url args) p)
  | None => MessageApi.Data (stored (MessageApi.url args) no_body)
  end.

(** The answer of [all_ok] to the deletion of message [m1]. *)
Definition deleted : MessageApi.Envelope MessageApi.Wire.Message :=
  stored "/messages/m1" no_body.

Definition raw_fails : MessageApi.BaseQuery := fun args =>
  if String.eqb (MessageApi.url args) "/messages/raw/"
  then MessageApi.Error (failure 500 "raw failed")
  else all_ok args.

Definition all_fail : MessageApi.BaseQuery := fun args =>
  if String.eqb (MessageApi.url args) "/messages/"
  then MessageApi.Error (failure 500 "rag failed")
  else if String.eqb (MessageApi.url args) "/messages/raw/"
  then MessageApi.Error (failure 502 "raw failed")
  else MessageApi.Error (failure 503 "rawModel failed").

Definition message_at (route : string) : MessageApi.Message :=
  MessageApi.toMessage (stored route (MessageApi.createMessage_payload (hello "user"))).

(** The result of creating [hello "user"] against [all_ok]. *)
Definition created : MessageApi.CreateAllResult :=
  {| MessageApi.rag := message_at "/messages/";
     MessageApi.raw := message_at "/messages/raw/";
     MessageApi.rawModel := message_at "/messages/raw-model/" |}.

(** A backend that answers a request whose sender type is [Bot] and refuses
    every other request. *)
Definition wants_Bot : MessageApi.BaseQuery := fun args =>
  match MessageApi.body args with
  | Some p =>
      if String.eqb (MessageApi.sender_type p) "Bot"
      then MessageApi.Data (stored (MessageApi.url args) p)
      else MessageApi.Error (failure 400 "unexpected body")
  | None => MessageApi.Error (failure 400 "unexpected body")
  end.

Definition message_Bot (route : string) : MessageApi.Message :=
  MessageApi.toMessage
    (stored route (MessageApi.createMessage_payload (hello "assistant"))).

(** The result of creating [hello "assistant"] against [wants_Bot]. *)
Definition created_Bot : MessageApi.CreateAllResult :=
  {| MessageApi.rag := message_Bot "/messages/";
     MessageApi.raw := message_Bot "/messages/raw/";
     MessageApi.rawModel := message_Bot "/messages/raw-model/" |}.

(** A cache that holds one listing under the tag [Message]. *)
Definition warm_cache : gmap string (gmap string (ResultCache.Entry (list string))) :=
  ResultCache.put "Message" "getMessageIds(c1)" ["m1"; "m2"] ∅.


(** A backend that accepts every upload. *)
Definition accepting (req : AxiosRequest) : Completion AxiosResponse :=
  Return {| Axios.status := 200;
            Axios.data := UploadTypes.response_body (Some "File uploaded") |}.

Definition env_accepting : Env :=
  {| sessionStorage := {[ "access_token" := "abc" ]};
     axiosInstance_post := accepting;
     type_error_text := "Cannot read properties of undefined" |}.

(** The upload form with a file of the given name chosen. *)
Definition form_with (n : string) (sp : Z) (ep : option Z) (tp : string)
  : AdminUploadPage.State :=
  {| AdminUploadPage.file := Some {| name := n; blob := [] |};
     AdminUploadPage.startPage := sp;
     AdminUploadPage.endPage := ep;
     AdminUploadPage.topic := tp;
     AdminUploadPage.submitting := false;
     AdminUploadPage.message := EmptyString;
     AdminUploadPage.variant := AdminUploadPage.variant_empty |}.

(** An HTTP client whose requests are rejected without a reason:
    [Promise.reject()]. *)
Definition rejecting_undefined (req : AxiosRequest) : Completion AxiosResponse :=
  Throw thrown_undefined.

Definition env_rejecting_undefined : Env :=
  {| sessionStorage := {[ "access_token" := "abc" ]};
     axiosInstance_post := rejecting_undefined;
     type_error_text := "Cannot read properties of undefined" |}.

(** A backend that answers 204, without a body. *)
Definition answering_nothing (req : AxiosRequest) : Completion AxiosResponse :=
  Return {| Axios.status := 204; Axios.data := UploadTypes.response_absent |}.

Definition env_answering_nothing : Env :=
  {| sessionStorage := {[ "access_token" := "abc" ]};
     axiosInstance_post := answering_nothing;
     type_error_text := "Cannot read properties of undefined" |}.

(** Headers as the list of the pairs set so far, most recent first. *)
Definition set_pair (h : list (string * string)) (k v : string)
  : Completion (list (string * string)) :=
  Return ((k, v) :: h).
End Samples.
(** * Properties *)

(** ** String primitives *)

Module JsStringFacts.
Import JsString.

Lemma lastIndexOf_from_absent c s i last :
  has_char c s = false -> lastIndexOf_from c s i last = last.
Proof.
  revert i last. induction s as [|a s IH]; intros i last H; simpl in *.
  - reflexivity.
  - apply orb_false_iff in H as [Ha Hs]. rewrite Ha. now apply IH.
Qed.

Lemma lastIndexOf_from_last c pre suf i last :
  has_char c suf = false ->
  lastIndexOf_from c (pre +:+ String c suf) i last = i + js_length pre.
Proof.
  intros Hsuf. revert i last.
  induction pre as [|a pre IH]; intros i last; simpl.
  - rewrite Ascii.eqb_refl, lastIndexOf_from_absent by assumption.
    unfold js_length; simpl; lia.
  - rewrite IH. unfold js_length; simpl String.length. lia.
Qed.

Lemma lastIndexOf_absent c s : has_char c s = false -> lastIndexOf c s = -1.
Proof. apply lastIndexOf_from_absent. Qed.

Lemma lastIndexOf_last c pre suf :
  has_char c suf = false ->
  lastIndexOf c (pre +:+ String c suf) = js_length pre.
Proof.
  intros H. unfold lastIndexOf. rewrite lastIndexOf_from_last by assumption. lia.
Qed.

Lemma length_app_string s t :
  String.length (s +:+ t) = (String.length s + String.length t)%nat.
Proof. induction s as [|a s IH]; simpl; [reflexivity | now rewrite IH]. Qed.

Lemma drop_chars_app pre rest : drop_chars (String.length pre) (pre +:+ rest) = rest.
Proof. induction pre as [|a pre IH]; simpl; [now destruct rest | exact IH]. Qed.

Lemma slice_app pre rest : slice (js_length pre) (pre +:+ rest) = rest.
Proof.
  unfold slice, js_length. rewrite length_app_string.
  destruct (Z.ltb_spec (Z.of_nat (String.length pre)) 0) as [Hneg|_]; [lia|].
  rewrite Z.min_l by lia. rewrite Nat2Z.id. apply drop_chars_app.
Qed.

Lemma js_length_nonneg s : 0 <= js_length s.
Proof. unfold js_length. lia. Qed.

End JsStringFacts.

(** ** The upload pipeline *)

Module UploadFacts.
Import JsString JsStringFacts UploadTypes Upload.

(** The extension of a name without a dot is empty. *)
Lemma getExt_no_dot name : has_char "." name = false -> getExt name = EmptyString.
Proof.
  intros H. unfold getExt. rewrite lastIndexOf_absent by assumption. reflexivity.
Qed.

(** The extension is the lower-cased suffix from the last dot on. *)
Lemma getExt_last_dot pre suf :
  has_char "." suf = false ->
  getExt (pre +:+ String "." suf) = String "." (toLowerCase suf).
Proof.
  intros H. unfold getExt. rewrite lastIndexOf_last by assumption.
  destruct (Z.leb_spec 0 (js_length pre)) as [_|Hneg].
  - rewrite slice_app. reflexivity.
  - pose proof (js_length_nonneg pre). lia.
Qed.

Lemma ALLOWED_has_true ext :
  ALLOWED_has ext = true <-> ext = ".pdf" \/ ext = ".ppt" \/ ext = ".docx".
Proof.
  unfold ALLOWED_has, ALLOWED.
  rewrite bool_decide_eq_true, !elem_of_union, !elem_of_singleton. tauto.
Qed.

(** Every extension the check lets through is one the type [allowedExt]
    names. *)
Lemma ALLOWED_has_allowedExt ext : ALLOWED_has ext = true -> In ext allowedExt.
Proof.
  rewrite ALLOWED_has_true. unfold allowedExt.
  intros [-> | [-> | ->]]; simpl; tauto.
Qed.

(** A name whose extension is not in [ALLOWED] is answered at once: no
    event at all is produced. *)
Lemma uploadDocument_bad_ext env data :
  ALLOWED_has (getExt (name (file data))) = false ->
  uploadDocument data env = (Return invalid_type, []).
Proof. intros H. unfold uploadDocument. rewrite H. reflexivity. Qed.

(** An allowed name without a usable token: one storage lookup, then the
    [Error] is thrown. *)
Lemma uploadDocument_no_token env data :
  ALLOWED_has (getExt (name (file data))) = true ->
  no_credential env ->
  uploadDocument data env = (Throw no_token, [GetItem "access_token"]).
Proof.
  intros Hext Hcred. unfold uploadDocument, no_credential in *. rewrite Hext. simpl.
  unfold mbind, M_bind, getItem.
  destruct (sessionStorage env !! "access_token") as [tok|]; [|reflexivity].
  rewrite Hcred. reflexivity.
Qed.

(** An allowed name with a token: one lookup, one post, and the outcome of
    the post decides the result. *)
Lemma uploadDocument_posts env data tok :
  ALLOWED_has (getExt (name (file data))) = true ->
  sessionStorage env !! "access_token" = Some tok ->
  truthy tok = true ->
  uploadDocument data env =
    match axiosInstance_post env (upload_request data tok) with
    | Return response =>
        (Return (Axios.data response),
         [GetItem "access_token"; Post (upload_request data tok)])
    | Throw error =>
        (caught env error,
         [GetItem "access_token"; Post (upload_request data tok);
          ConsoleError "Upload error:" error])
    end.
Proof.
  intros Hext Hsome Htok. unfold uploadDocument. rewrite Hext. simpl.
  unfold mbind, M_bind, getItem. rewrite Hsome, Htok.
  unfold try_catch, post.
  destruct (axiosInstance_post env _) as [response|[| |e]]; reflexivity.
Qed.

(** C3 (the code departs from the claim). The type [allowedExt] and the
    upload form name [.pptx] as allowed, yet [uploadDocument] answers a
    file named [doc.pptx] with the invalid-file-type message, without
    looking up the token and without any request, whatever the
    environment and the other fields are. *)
Theorem uploadDocument_rejects_pptx :
  In ".pptx" allowedExt /\
  getExt "doc.pptx" = ".pptx" /\
  ALLOWED_has ".pptx" = false /\
  forall env bytes sp ep tp,
    uploadDocument {| file := {| name := "doc.pptx"; blob := bytes |};
                      start_page := sp; end_page := ep; topic := tp |} env
    = (Return invalid_type, []).
Proof.
  split; [simpl; tauto|]. split; [reflexivity|]. split; [reflexivity|].
  intros. apply uploadDocument_bad_ext. reflexivity.
Qed.

(** Outside the four extensions of [allowedExt] the check and the type
    agree: the file is rejected with no event. *)
Lemma uploadDocument_outside_allowedExt env data :
  ~ In (getExt (name (file data))) allowedExt ->
  uploadDocument data env = (Return invalid_type, []).
Proof.
  intros Hout. apply uploadDocument_bad_ext.
  destruct (ALLOWED_has _) eqn:E; [|reflexivity].
  exfalso. apply Hout. now apply ALLOWED_has_allowedExt.
Qed.

(** C4, as stated, fails: with an allowed name and an empty session
    storage the call does not return a value, it throws. *)
Lemma uploadDocument_no_token_not_returned :
  sessionStorage Samples.env_no_token !! "access_token" = None /\
  uploadDocument (Samples.upload_of "doc.pdf") Samples.env_no_token
    = (Throw no_token, [GetItem "access_token"]) /\
  ~ exists r : UploadResponse,
      fst (uploadDocument (Samples.upload_of "doc.pdf") Samples.env_no_token) = Return r.
Proof.
  split; [reflexivity|]. split; [reflexivity|].
  intros [r Hr]. vm_compute in Hr. discriminate Hr.
Qed.

(** C4 (amended). Without a credential [uploadDocument] makes no HTTP
    request; when the extension passes the check it fails at once by
    throwing [Error("No token found")], and when the extension is
    rejected it returns the invalid-file-type message. *)
Theorem uploadDocument_no_credential env data :
  no_credential env ->
  network_calls (snd (uploadDocument data env)) = 0%nat /\
  fst (uploadDocument data env) =
    if ALLOWED_has (getExt (name (file data)))
    then Throw no_token
    else Return invalid_type.
Proof.
  intros Hcred. destruct (ALLOWED_has _) eqn:Hext.
  - rewrite uploadDocument_no_token by assumption. split; reflexivity.
  - rewrite uploadDocument_bad_ext by assumption. split; reflexivity.
Qed.

Lemma uploadDocument_no_credential_witness :
  network_calls (snd (uploadDocument (Samples.upload_of "Slides.PPT") Samples.env_no_token)) = 0%nat /\
  fst (uploadDocument (Samples.upload_of "Slides.PPT") Samples.env_no_token) =
    if ALLOWED_has (getExt (name (file (Samples.upload_of "Slides.PPT"))))
    then Throw no_token
    else Return invalid_type.
Proof.
  apply (uploadDocument_no_credential Samples.env_no_token (Samples.upload_of "Slides.PPT")).
  unfold no_credential. simpl. exact I.
Defined.

(** With an allowed extension and a token, every rejection of the post
    with a value other than [undefined] and [null] is caught and turned
    into a [{ message }] value: the message of the error body when it has
    one, and a generic text otherwise. *)
Lemma uploadDocument_value_rejection_caught env data tok e :
  ALLOWED_has (getExt (name (file data))) = true ->
  sessionStorage env !! "access_token" = Some tok ->
  truthy tok = true ->
  axiosInstance_post env (upload_request data tok) = Throw (thrown_value e) ->
  uploadDocument data env =
    (Return (response_body
               (Some (nullish_or (response_message e) "Unexpected error occurred"))),
     [GetItem "access_token"; Post (upload_request data tok);
      ConsoleError "Upload error:" (thrown_value e)]).
Proof.
  intros Hext Hsome Htok Hpost.
  rewrite (uploadDocument_posts env data tok Hext Hsome Htok), Hpost. reflexivity.
Qed.

(** With an allowed extension and a token, a post rejected with [undefined]
    or [null] makes the [catch] block itself fail: the call ends with a
    [TypeError], after the request and the [console.error]. *)
Lemma uploadDocument_nullish_rejection_escapes env data tok error :
  ALLOWED_has (getExt (name (file data))) = true ->
  sessionStorage env !! "access_token" = Some tok ->
  truthy tok = true ->
  axiosInstance_post env (upload_request data tok) = Throw error ->
  error = thrown_undefined \/ error = thrown_null ->
  uploadDocument data env =
    (Throw (new_Error (type_error_text env)),
     [GetItem "access_token"; Post (upload_request data tok);
      ConsoleError "Upload error:" error]).
Proof.
  intros Hext Hsome Htok Hpost Hnull.
  rewrite (uploadDocument_posts env data tok Hext Hsome Htok), Hpost.
  destruct Hnull as [-> | ->]; reflexivity.
Qed.

(** C6 (the code departs from the claim). The file [doc.pdf] passes the
    extension check and a token is stored, but the post is rejected with
    [undefined]: the [catch] block reads [error.response] of it, and
    [uploadDocument] ends with a [TypeError] instead of a [{ message }]
    value. The caller [handleSubmit], which reads [err?.message], does
    catch that error and shows it. *)
Theorem uploadDocument_undefined_rejection_not_caught :
  ALLOWED_has (getExt "doc.pdf") = true /\
  sessionStorage Samples.env_rejecting_undefined !! "access_token" = Some "abc" /\
  axiosInstance_post Samples.env_rejecting_undefined
    (upload_request (Samples.upload_of "doc.pdf") "abc") = Throw thrown_undefined /\
  uploadDocument (Samples.upload_of "doc.pdf") Samples.env_rejecting_undefined =
    (Throw (new_Error "Cannot read properties of undefined"),
     [GetItem "access_token";
      Post (upload_request (Samples.upload_of "doc.pdf") "abc");
      ConsoleError "Upload error:" thrown_undefined]) /\
  ~ exists r : UploadResponse,
      fst (uploadDocument (Samples.upload_of "doc.pdf") Samples.env_rejecting_undefined)
        = Return r.
Proof.
  split; [reflexivity|]. split; [reflexivity|]. split; [reflexivity|].
  assert (Hup := uploadDocument_nullish_rejection_escapes
                   Samples.env_rejecting_undefined (Samples.upload_of "doc.pdf") "abc"
                   thrown_undefined eq_refl eq_refl eq_refl eq_refl (or_introl eq_refl)).
  split; [exact Hup|]. rewrite Hup. intros [r Hr]. discriminate Hr.
Qed.

(** C10. The extension is checked before the token is read: a name whose
    extension is outside [ALLOWED] gets the invalid-file-type message
    with an empty trace, so neither the session storage nor the HTTP
    client is touched, in every environment. *)
Theorem uploadDocument_ext_before_token env data :
  getExt (name (file data)) ∉ ALLOWED ->
  uploadDocument data env = (Return invalid_type, []) /\
  credential_lookups (snd (uploadDocument data env)) = 0%nat /\
  network_calls (snd (uploadDocument data env)) = 0%nat.
Proof.
  intros Hout.
  assert (Hhas : ALLOWED_has (getExt (name (file data))) = false)
    by (unfold ALLOWED_has; now apply bool_decide_eq_false).
  rewrite (uploadDocument_bad_ext env data Hhas). repeat split.
Qed.

Lemma uploadDocument_ext_before_token_witness :
  sessionStorage Samples.env_no_token !! "access_token" = None /\
  uploadDocument (Samples.upload_of "notes.txt") Samples.env_no_token
    = (Return invalid_type, []).
Proof.
  split; [reflexivity|].
  apply (uploadDocument_ext_before_token Samples.env_no_token (Samples.upload_of "notes.txt")).
  unfold ALLOWED. rewrite !elem_of_union, !elem_of_singleton.
  vm_compute. intros [[H|H]|H]; discriminate H.
Defined.

(** C8. For every upload model whose page numbers are safe integers, the
    form data holds the file under [file], the start page as its decimal
    string under [start_page] with ["1"] when absent, the end page under
    [end_page] exactly when it is a number (neither undefined nor null),
    and the topic under [topic] with ["general"] when absent, in this
    order and nothing else. *)
Theorem createUploadFormData_fields data :
  safe_pages data ->
  let fd := createUploadFormData data in
  FormData_getAll fd "file" = [FileValue (file data)] /\
  FormData_getAll fd "start_page" =
    [StringValue match start_page data with
                 | Some n => String_of n
                 | None => "1"
                 end] /\
  FormData_getAll fd "end_page" =
    match end_page data with
    | value e => [StringValue (String_of e)]
    | undefined | null => []
    end /\
  (FormData_has fd "end_page" = true <-> exists e, end_page data = value e) /\
  FormData_getAll fd "topic" =
    [StringValue match topic data with
                 | Some t => t
                 | None => "general"
                 end] /\
  FormData_keys fd =
    (["file"; "start_page"]
       ++ match end_page data with
          | value _ => ["end_page"]
          | undefined | null => []
          end
       ++ ["topic"])%list.
Proof.
  intros _. destruct data as [f sp ep tp]. unfold createUploadFormData; simpl.
  destruct sp as [n|], tp as [t|], ep as [| |e]; simpl;
    repeat split; try reflexivity; try discriminate;
    try (intros [e' He']; discriminate He'); eauto.
Qed.

Lemma createUploadFormData_fields_witness :
  FormData_getAll (createUploadFormData Samples.pages_3_to_12) "file"
    = [FileValue {| name := "doc.pdf"; blob := [] |}] /\
  FormData_getAll (createUploadFormData Samples.pages_3_to_12) "start_page"
    = [StringValue "3"] /\
  FormData_getAll (createUploadFormData Samples.pages_3_to_12) "end_page"
    = [StringValue "12"] /\
  FormData_getAll (createUploadFormData Samples.pages_3_to_12) "topic"
    = [StringValue "general"] /\
  FormData_getAll (createUploadFormData (Samples.upload_of "doc.pdf")) "start_page"
    = [StringValue "1"] /\
  FormData_has (createUploadFormData (Samples.upload_of "doc.pdf")) "end_page" = false.
Proof.
  assert (Hsafe : safe_pages Samples.pages_3_to_12).
  { split.
    - intros n Hn. injection Hn as <-. unfold safe_integer. lia.
    - intros e He. injection He as <-. unfold safe_integer. lia. }
  assert (Hsafe' : safe_pages (Samples.upload_of "doc.pdf")).
  { split; [intros n Hn | intros e He]; discriminate. }
  destruct (createUploadFormData_fields Samples.pages_3_to_12 Hsafe)
    as (Hfile & Hstart & Hend & _ & Htopic & _).
  destruct (createUploadFormData_fields (Samples.upload_of "doc.pdf") Hsafe')
    as (_ & Hstart' & _ & Hhas' & _).
  split; [exact Hfile|]. split; [exact Hstart|]. split; [exact Hend|].
  split; [exact Htopic|]. split; [exact Hstart'|].
  destruct (FormData_has _ "end_page") eqn:E; [|reflexivity].
  destruct (proj1 Hhas' eq_refl) as [e He]. discriminate He.
Defined.

End UploadFacts.

(** ** The upload form *)

Module AdminUploadPageFacts.
Import JsString Upload UploadFacts AdminUploadPage.


(** A submission that fails a local check ends in the error variant with
    an empty trace. *)
Lemma handleSubmit_rejected env st :
  file st = None \/ bad_range st ->
  exists st',
    handleSubmit st env = (Return st', []) /\
    variant st' = variant_error /\
    In (message st') [select_a_file; start_too_small; end_before_start].
Proof.
  intros Hbad. destruct st as [f sp ep tp sub msg var]. unfold handleSubmit; simpl.
  destruct f as [f|].
  - destruct Hbad as [Hf|Hbad]; [discriminate Hf|].
    destruct (Z.ltb_spec sp 1) as [Hlt|Hge].
    + eexists; split; [reflexivity|]. simpl. unfold start_too_small. tauto.
    + destruct Hbad as [Hlt|(e & He & Hlt)]; simpl in *; [lia|].
      subst ep. destruct (Z.ltb_spec e sp) as [_|Hge']; [|lia].
      eexists; split; [reflexivity|]. simpl. unfold end_before_start. tauto.
  - eexists; split; [reflexivity|]. simpl. unfold select_a_file. tauto.
Qed.

(** A submission that passes the local checks calls [uploadDocument] once,
    with the fields of the form, and shows its outcome. *)
Lemma handleSubmit_accepted env st f :
  file st = Some f ->
  1 <= startPage st ->
  (forall e, endPage st = Some e -> startPage st <= e) ->
  let arg := {| UploadTypes.file := f;
                UploadTypes.start_page := Some (startPage st);
                UploadTypes.end_page :=
                  match endPage st with Some e => value e | None => null end;
                UploadTypes.topic := Some (topic st) |} in
  exists st',
    handleSubmit st env =
      (Return st', Invoke_uploadDocument arg :: snd (uploadDocument arg env)) /\
    submitting st' = false /\
    match fst (uploadDocument arg env) with
    | Return (UploadTypes.response_body m) =>
        variant st' = variant_success /\
        message st' = nullish_or m "Upload completed."
    | Return UploadTypes.response_absent =>
        variant st' = variant_error /\ message st' = type_error_text env
    | Throw err =>
        variant st' = variant_error /\
        message st' = nullish_or (thrown_message err) "Unexpected error during upload."
    end.
Proof.
  intros Hf Hsp Hep arg. destruct st as [f0 sp ep tp sub msg var]. simpl in *.
  subst f0. unfold handleSubmit; simpl.
  destruct (Z.ltb_spec sp 1) as [Hlt|_]; [lia|].
  assert (Hrange : match ep with Some e => e <? sp | None => false end = false).
  { destruct ep as [e|]; [|reflexivity]. apply Z.ltb_ge. now apply Hep. }
  rewrite Hrange. unfold mbind, M_bind, try_catch, emit, upload_argument; simpl.
  fold arg. destruct (uploadDocument arg env) as [[[|m]|err] t]; simpl;
    rewrite !app_nil_r; (eexists; split; [reflexivity|]); simpl; auto.
Qed.



End AdminUploadPageFacts.

(** ** The message API *)

Module MessageApiFacts.
Import MessageApi.

(** *** The join *)

Lemma collect_Some {A} (l : list A) : collect (Some <$> l) = Some l.
Proof. induction l as [|x l IH]; csimpl; [reflexivity | now rewrite IH]. Qed.

Lemma collect_pending {A} (buffer : list (option A)) i :
  buffer !! i = Some None -> collect buffer = None.
Proof.
  revert i. induction buffer as [|[v|] buffer IH]; intros i Hi; simpl.
  - discriminate Hi.
  - destruct i as [|i]; [discriminate Hi|]. simpl in Hi. now rewrite (IH i Hi).
  - reflexivity.
Qed.

Lemma length_settle {A} (promises : list A) buffer i :
  length (settle promises buffer i) = length buffer.
Proof. unfold settle. destruct (promises !! i); [apply length_insert | reflexivity]. Qed.

(** A slot of the buffer holds the value of its promise once the index of
    the promise has occurred in the settle order, and is unchanged
    otherwise. *)
Lemma lookup_settled {A} (promises : list A) order buffer i :
  length buffer = length promises ->
  foldl (settle promises) buffer order !! i =
    if decide (i ∈ order) then Some <$> promises !! i else buffer !! i.
Proof.
  revert buffer. induction order as [|j order IH]; intros buffer Hlen; simpl.
  - destruct (decide (i ∈ [])) as [Hin|_]; [|reflexivity].
    now apply elem_of_nil in Hin.
  - rewrite IH by (now rewrite length_settle).
    destruct (decide (i ∈ order)) as [Hin|Hnin].
    + rewrite decide_True by (now right). reflexivity.
    + destruct (decide (i = j)) as [->|Hne].
      * rewrite decide_True by (now left). unfold settle.
        destruct (promises !! j) as [v|] eqn:Hj; simpl.
        -- apply list_lookup_insert_eq. rewrite Hlen. now apply lookup_lt_Some in Hj.
        -- apply lookup_ge_None. rewrite Hlen. now apply lookup_ge_None.
      * rewrite decide_False by (rewrite elem_of_cons; tauto).
        unfold settle. destruct (promises !! j); [|reflexivity].
        now apply list_lookup_insert_ne.
Qed.

(** Once every promise has settled, in whatever order, the join yields the
    values in the order of the array. *)
Lemma Promise_all_complete {A} (promises : list A) order :
  (forall i, (i < length promises)%nat -> i ∈ order) ->
  Promise_all promises order = Some promises.
Proof.
  intros Hall. unfold Promise_all.
  replace (foldl _ _ order) with (Some <$> promises); [apply collect_Some|].
  apply list_eq. intros i.
  rewrite lookup_settled by apply length_replicate.
  rewrite list_lookup_fmap.
  destruct (decide (i ∈ order)) as [_|Hnin]; [reflexivity|].
  assert (Hge : (length promises <= i)%nat).
  { destruct (Nat.le_gt_cases (length promises) i) as [H|H]; [exact H|].
    now apply Hall in H. }
  rewrite (proj1 (lookup_replicate_None _ _ _) Hge).
  now rewrite (proj2 (lookup_ge_None promises i) Hge).
Qed.

(** While some promise is pending the join yields nothing. *)
Lemma Promise_all_pending {A} (promises : list A) order i :
  (i < length promises)%nat -> i ∉ order ->
  Promise_all promises order = None.
Proof.
  intros Hlt Hnin. unfold Promise_all. apply (collect_pending _ i).
  rewrite lookup_settled by apply length_replicate.
  rewrite decide_False by assumption. now apply lookup_replicate_2.
Qed.

Lemma Promise_all_permutation {A} (promises : list A) order :
  order ≡ₚ seq 0 (length promises) -> Promise_all promises order = Some promises.
Proof.
  intros Hperm. apply Promise_all_complete. intros i Hlt.
  rewrite Hperm. apply elem_of_seq. lia.
Qed.

(** *** [createMessage] *)

(** The query function reads the backend only at the three requests. *)
Lemma createMessage_queryFn_ext (bq1 bq2 : BaseQuery) order body :
  Forall (fun args => bq1 args = bq2 args) (createMessage_requests body) ->
  createMessage_queryFn bq1 order body = createMessage_queryFn bq2 order body.
Proof.
  intros Hagree. unfold createMessage_queryFn.
  replace (bq1 <$> createMessage_requests body)
    with (bq2 <$> createMessage_requests body); [reflexivity|].
  symmetry. apply list_fmap_ext. intros i args Hi.
  rewrite Forall_forall in Hagree. apply Hagree.
  apply list_elem_of_lookup. now exists i.
Qed.

(** Once the join completes, the outcome is decided by the three results
    alone. *)
Lemma createMessage_queryFn_joined (baseQuery : BaseQuery) order body :
  order ≡ₚ [0; 1; 2]%nat ->
  createMessage_queryFn baseQuery order body =
    match first_error (baseQuery <$> createMessage_requests body) with
    | Some e => Some (Error e)
    | None =>
        match baseQuery <$> createMessage_requests body with
        | [Data r1; Data r2; Data r3] =>
            Some (Data {| rag := toMessage r1; raw := toMessage r2;
                          rawModel := toMessage r3 |})
        | _ => None
        end
    end.
Proof.
  intros Hperm. unfold createMessage_queryFn.
  rewrite Promise_all_permutation by exact Hperm.
  unfold createMessage_requests, first_error. csimpl.
  destruct (baseQuery _) as [r1|e1]; [|reflexivity].
  destruct (baseQuery _) as [r2|e2]; [|reflexivity].
  destruct (baseQuery _) as [r3|e3]; reflexivity.
Qed.

(** When the three calls succeed the result holds the three translated
    messages. *)
Lemma createMessage_all_succeed (baseQuery : BaseQuery) order body r1 r2 r3 :
  order ≡ₚ [0; 1; 2]%nat ->
  baseQuery <$> createMessage_requests body = [Data r1; Data r2; Data r3] ->
  createMessage_queryFn baseQuery order body =
    Some (Data {| rag := toMessage r1; raw := toMessage r2; rawModel := toMessage r3 |}).
Proof.
  intros Hperm Hres. rewrite createMessage_queryFn_joined by exact Hperm.
  rewrite Hres. reflexivity.
Qed.

(** C1. If one of the three creation calls returns an error then, in
    whatever order the three calls complete, [createMessage] returns the
    error of the first failing call in the order rag, raw, rawModel, and
    no [CreateAllResult]. *)
Theorem createMessage_first_error_wins (baseQuery : BaseQuery) order body e :
  order ≡ₚ [0; 1; 2]%nat ->
  first_error (baseQuery <$> createMessage_requests body) = Some e ->
  createMessage_queryFn baseQuery order body = Some (Error e) /\
  forall d : CreateAllResult,
    createMessage_queryFn baseQuery order body <> Some (Data d).
Proof.
  intros Hperm Hfirst.
  rewrite createMessage_queryFn_joined by exact Hperm. rewrite Hfirst.
  split; [reflexivity | discriminate].
Qed.

Lemma createMessage_first_error_wins_witness :
  createMessage_queryFn Samples.all_fail [2; 0; 1]%nat (Samples.hello "user")
    = Some (Error (Samples.failure 500 "rag failed")) /\
  createMessage_queryFn Samples.raw_fails [1; 2; 0]%nat (Samples.hello "user")
    = Some (Error (Samples.failure 500 "raw failed")).
Proof.
  split.
  - apply (createMessage_first_error_wins Samples.all_fail [2; 0; 1]%nat
             (Samples.hello "user") (Samples.failure 500 "rag failed")).
    + apply (Permutation_cons_append [0; 1]%nat 2%nat).
    + reflexivity.
  - apply (createMessage_first_error_wins Samples.raw_fails [1; 2; 0]%nat
             (Samples.hello "user") (Samples.failure 500 "raw failed")).
    + symmetry. apply (Permutation_cons_append [1; 2]%nat 0%nat).
    + reflexivity.
Defined.

(** C9. The three calls that [createMessage] issues go to the three
    creation routes and carry one and the same body: the conversation id
    and the content of the argument, and the role as [User] for [user] and
    [Bot] otherwise, in particular for [assistant]. The outcome of
    [createMessage] depends on the backend through its answers to exactly
    these three requests, and the answer to each of them is used: an
    error of the rag call, else of the raw call, else of the rawModel call
    is the outcome, and three successes give the three messages. *)
Theorem createMessage_same_payload order body :
  order ≡ₚ [0; 1; 2]%nat ->
  let payload := {| conversation_id := Simple.conversationId body;
                    sender_type := if String.eqb (Simple.role body) "user"
                                   then "User" else "Bot";
                    payload_content := Simple.content body |} in
  let call := fun route =>
                {| url := route; method := "POST"; body := Some payload |} in
  (forall bq1 bq2 : BaseQuery,
      bq1 (call "/messages/") = bq2 (call "/messages/") ->
      bq1 (call "/messages/raw/") = bq2 (call "/messages/raw/") ->
      bq1 (call "/messages/raw-model/") = bq2 (call "/messages/raw-model/") ->
      createMessage_queryFn bq1 order body = createMessage_queryFn bq2 order body) /\
  (forall (bq : BaseQuery) e,
      bq (call "/messages/") = Error e ->
      createMessage_queryFn bq order body = Some (Error e)) /\
  (forall (bq : BaseQuery) r1 e,
      bq (call "/messages/") = Data r1 ->
      bq (call "/messages/raw/") = Error e ->
      createMessage_queryFn bq order body = Some (Error e)) /\
  (forall (bq : BaseQuery) r1 r2 e,
      bq (call "/messages/") = Data r1 ->
      bq (call "/messages/raw/") = Data r2 ->
      bq (call "/messages/raw-model/") = Error e ->
      createMessage_queryFn bq order body = Some (Error e)) /\
  (forall (bq : BaseQuery) r1 r2 r3,
      bq (call "/messages/") = Data r1 ->
      bq (call "/messages/raw/") = Data r2 ->
      bq (call "/messages/raw-model/") = Data r3 ->
      createMessage_queryFn bq order body =
        Some (Data {| rag := toMessage r1; raw := toMessage r2;
                      rawModel := toMessage r3 |})) /\
  (Simple.role body = "user" -> sender_type payload = "User") /\
  (Simple.role body = "assistant" -> sender_type payload = "Bot") /\
  url <$> createMessage_requests body
    = ["/messages/"; "/messages/raw/"; "/messages/raw-model/"] /\
  Forall (fun args => MessageApi.body args = Some payload /\ method args = "POST")
    (createMessage_requests body).
Proof.
  intros Hperm payload call.
  assert (Hreqs : createMessage_requests body
                  = [call "/messages/"; call "/messages/raw/";
                     call "/messages/raw-model/"]) by reflexivity.
  assert (Hrun : forall bq : BaseQuery,
             createMessage_queryFn bq order body =
               match first_error [bq (call "/messages/"); bq (call "/messages/raw/");
                                  bq (call "/messages/raw-model/")] with
               | Some e => Some (Error e)
               | None =>
                   match bq (call "/messages/"), bq (call "/messages/raw/"),
                         bq (call "/messages/raw-model/") with
                   | Data r1, Data r2, Data r3 =>
                       Some (Data {| rag := toMessage r1; raw := toMessage r2;
                                     rawModel := toMessage r3 |})
                   | _, _, _ => None
                   end
               end).
  { intros bq. rewrite (createMessage_queryFn_joined bq order body Hperm), Hreqs.
    csimpl. destruct (bq (call "/messages/")), (bq (call "/messages/raw/")),
      (bq (call "/messages/raw-model/")); reflexivity. }
  split; [|split; [|split; [|split; [|split; [|split; [|split; [|split]]]]]]].
  - intros bq1 bq2 H1 H2 H3. rewrite !Hrun, H1, H2, H3. reflexivity.
  - intros bq e H1. rewrite Hrun, H1. reflexivity.
  - intros bq r1 e H1 H2. rewrite Hrun, H1, H2. reflexivity.
  - intros bq r1 r2 e H1 H2 H3. rewrite Hrun, H1, H2, H3. reflexivity.
  - intros bq r1 r2 r3 H1 H2 H3. rewrite Hrun, H1, H2, H3. reflexivity.
  - intros Hrole. subst payload. simpl. now rewrite Hrole.
  - intros Hrole. subst payload. simpl. now rewrite Hrole.
  - reflexivity.
  - rewrite Hreqs. repeat constructor.
Qed.

Lemma createMessage_same_payload_witness :
  createMessage_queryFn Samples.wants_Bot [2; 0; 1]%nat (Samples.hello "assistant")
    = Some (Data Samples.created_Bot) /\
  createMessage_queryFn Samples.wants_Bot [2; 0; 1]%nat (Samples.hello "user")
    = Some (Error (Samples.failure 400 "unexpected body")).
Proof.
  assert (Hperm : [2; 0; 1]%nat ≡ₚ [0; 1; 2]%nat)
    by apply (Permutation_cons_append [0; 1]%nat 2%nat).
  split.
  - destruct (createMessage_same_payload [2; 0; 1]%nat (Samples.hello "assistant") Hperm)
      as (_ & _ & _ & _ & Hall & _).
    apply (Hall Samples.wants_Bot); reflexivity.
  - destruct (createMessage_same_payload [2; 0; 1]%nat (Samples.hello "user") Hperm)
      as (_ & Hrag & _).
    apply (Hrag Samples.wants_Bot). reflexivity.
Defined.

(** *** Roles *)

(** What a reader gets back for a role written with [createMessage]. *)
Lemma role_read_back role :
  role_of_wire (wire_of_role role) = if String.eqb role "user" then "user" else "ai".
Proof. unfold wire_of_role. destruct (String.eqb role "user"); reflexivity. Qed.

(** C5, as stated, fails: [assistant] is written as [Bot], and [Bot] is
    read back as [ai]. *)
Lemma role_assistant_not_round_trip :
  wire_of_role "assistant" = "Bot" /\
  role_of_wire "Bot" = "ai" /\
  role_of_wire (wire_of_role "assistant") <> "assistant".
Proof. repeat split. discriminate. Qed.

(** C5 (amended). [user] is written as [User] and read back as [user];
    every other role, [assistant] included, is written as [Bot] and read
    back as [ai], so that [ai] is the role that survives the round trip
    through [Bot]. The three readers ([getMessages], [getMessage] and
    [toMessage]) translate alike. *)
Theorem role_round_trip :
  (wire_of_role "user" = "User" /\ role_of_wire "User" = "user") /\
  (wire_of_role "assistant" = "Bot" /\ role_of_wire "Bot" = "ai") /\
  (wire_of_role "ai" = "Bot" /\ role_of_wire (wire_of_role "ai") = "ai") /\
  (forall r, role_of_wire (wire_of_role r)
             = if String.eqb r "user" then "user" else "ai") /\
  (forall msg : Wire.Message,
      role (toMessage {| data := msg |}) = role_of_wire (Wire.sender_type msg) /\
      role (getMessage_transformResponse {| data := msg |})
        = role_of_wire (Wire.sender_type msg) /\
      role <$> getMessages_transformResponse {| data := [msg] |}
        = [role_of_wire (Wire.sender_type msg)]).
Proof.
  repeat split. apply role_read_back.
Qed.

End MessageApiFacts.

(** ** The result cache *)

Module ResultCacheFacts.
Import MessageApi ResultCache.

Section Cache.
Context {V : Type}.
Implicit Types c : gmap string (gmap string (Entry V)).

Lemma get_put_eq tag key v c : get tag key (put tag key v c) = Some v.
Proof.
  unfold get, put. rewrite lookup_insert_eq. simpl.
  rewrite lookup_insert_eq. reflexivity.
Qed.

Lemma get_invalidate_eq tag key c : get tag key (invalidate tag c) = None.
Proof.
  unfold get, invalidate. rewrite lookup_alter_eq.
  destruct (c !! tag) as [m|]; simpl; [|reflexivity].
  rewrite lookup_fmap. destruct (m !! key); reflexivity.
Qed.

Lemma get_invalidate_ne tag tag' key c :
  tag <> tag' -> get tag' key (invalidate tag c) = get tag' key c.
Proof.
  intros Hne. unfold get, invalidate. now rewrite lookup_alter_ne.
Qed.

(** A fresh entry is served without a fetch. *)
Lemma query_hit ep key fetch c v :
  providesTags ep = ["Message"] ->
  get "Message" key c = Some v ->
  query ep key fetch c = (Some v, c, 0%nat).
Proof.
  intros Htags Hget. unfold query. rewrite Htags. csimpl.
  rewrite Hget. reflexivity.
Qed.

(** A missing or stale entry costs one fetch. *)
Lemma query_miss ep key fetch c :
  In "Message" (providesTags ep) ->
  get "Message" key c = None ->
  snd (query ep key fetch c) = 1%nat.
Proof.
  intros Htags Hget. unfold query.
  destruct ep; simpl in Htags; try tauto; csimpl; rewrite Hget; csimpl;
    destruct (fetch key); reflexivity.
Qed.

(** A fetch that succeeds fills the cache: the next read is a hit. *)
Lemma query_miss_then_hit ep key fetch c v :
  providesTags ep = ["Message"] ->
  get "Message" key c = None ->
  fetch key = Some v ->
  query ep key fetch c = (Some v, put "Message" key v c, 1%nat) /\
  query ep key fetch (put "Message" key v c) = (Some v, put "Message" key v c, 0%nat).
Proof.
  intros Htags Hget Hfetch. split.
  - unfold query. rewrite Htags. csimpl. rewrite Hget. csimpl.
    now rewrite Hfetch.
  - apply query_hit; [assumption | apply get_put_eq].
Qed.

(** A failed mutation leaves the cache as it was. *)
Lemma after_mutation_error {D} ep e c :
  after_mutation (D := D) ep (Error e) c = c.
Proof. reflexivity. Qed.

Lemma after_mutation_success {D} ep (d : D) c :
  In "Message" (invalidatesTags ep) ->
  misses_Message (after_mutation ep (Data d) c).
Proof.
  intros Htags key.
  assert (Hget : get "Message" key (after_mutation ep (Data d) c) = None).
  { destruct ep; simpl in Htags; try tauto; simpl; apply get_invalidate_eq. }
  split; [exact Hget|]. intros q fetch Hq. now apply query_miss.
Qed.

(** C2. When a [createMessage] or a [deleteMessage] mutation completes
    with success, the cache it hands back has no fresh entry under the
    tag [Message]: every later read under that tag misses, and every
    query of an endpoint providing the tag performs one fetch. *)
Theorem mutation_invalidates_Message c :
  (forall baseQuery order body d c',
      createMessage_mutation baseQuery order body c = Some (Data d, c') ->
      misses_Message c') /\
  (forall baseQuery messageId d c',
      deleteMessage_mutation baseQuery messageId c = (Data d, c') ->
      misses_Message c').
Proof.
  split.
  - intros baseQuery order body d c' Hm. unfold createMessage_mutation in Hm.
    destruct (createMessage_queryFn baseQuery order body) as [r|]; [|discriminate Hm].
    simpl in Hm. injection Hm as -> <-.
    apply after_mutation_success. simpl. tauto.
  - intros baseQuery messageId d c' Hm. unfold deleteMessage_mutation in Hm.
    injection Hm as Hr <-. rewrite Hr.
    apply after_mutation_success. simpl. tauto.
Qed.

End Cache.

Lemma mutation_invalidates_Message_witness :
  get "Message" "getMessageIds(c1)" Samples.warm_cache = Some ["m1"; "m2"] /\
  ResultCache.misses_Message
    (after_mutation createMessage (Data Samples.created) Samples.warm_cache) /\
  ResultCache.misses_Message
    (after_mutation deleteMessage
       (Data Samples.deleted) Samples.warm_cache).
Proof.
  destruct (mutation_invalidates_Message Samples.warm_cache) as [Hcreate Hdelete].
  split; [reflexivity|]. split.
  - apply (Hcreate Samples.all_ok [0; 1; 2]%nat (Samples.hello "user") Samples.created).
    reflexivity.
  - apply (Hdelete Samples.all_ok "m1" Samples.deleted). reflexivity.
Defined.

End ResultCacheFacts.


(** * Further properties of the code *)

(** ** The extension of a file name *)

Module GetExtFacts.
Import JsString JsStringFacts UploadTypes Upload UploadFacts.

Lemma lower_char_dot a : Ascii.eqb (lower_char a) "." = Ascii.eqb a ".".
Proof. destruct a as [[] [] [] [] [] [] [] []]; reflexivity. Qed.

Lemma lower_char_idem a : lower_char (lower_char a) = lower_char a.
Proof. destruct a as [[] [] [] [] [] [] [] []]; reflexivity. Qed.

Lemma toLowerCase_idem s : toLowerCase (toLowerCase s) = toLowerCase s.
Proof.
  induction s as [|a s IH]; simpl; [reflexivity|].
  now rewrite lower_char_idem, IH.
Qed.

Lemma length_toLowerCase s : String.length (toLowerCase s) = String.length s.
Proof. induction s as [|a s IH]; simpl; [reflexivity | now rewrite IH]. Qed.

Lemma has_char_dot_lower s : has_char "." (toLowerCase s) = has_char "." s.
Proof.
  induction s as [|a s IH]; simpl; [reflexivity|].
  now rewrite lower_char_dot, IH.
Qed.

Lemma lastIndexOf_from_lower s i last :
  lastIndexOf_from "." (toLowerCase s) i last = lastIndexOf_from "." s i last.
Proof.
  revert i last. induction s as [|a s IH]; intros i last; simpl; [reflexivity|].
  rewrite lower_char_dot. apply IH.
Qed.

Lemma drop_chars_lower n s :
  drop_chars n (toLowerCase s) = toLowerCase (drop_chars n s).
Proof.
  revert s. induction n as [|n IH]; intros [|a s]; simpl; try reflexivity. apply IH.
Qed.

Lemma slice_lower i s : slice i (toLowerCase s) = toLowerCase (slice i s).
Proof.
  unfold slice, js_length. rewrite length_toLowerCase. apply drop_chars_lower.
Qed.

(** Lower-casing the name first does not change the extension. *)
Lemma getExt_lower name : getExt (toLowerCase name) = getExt name.
Proof.
  unfold getExt, lastIndexOf. rewrite lastIndexOf_from_lower.
  destruct (0 <=? _); [|reflexivity].
  now rewrite slice_lower, toLowerCase_idem.
Qed.

(** A string that contains a character splits at its last occurrence. *)
Lemma has_char_split c s :
  has_char c s = true ->
  exists pre suf, s = pre +:+ String c suf /\ has_char c suf = false.
Proof.
  induction s as [|a s IH]; simpl; [discriminate|].
  intros H. destruct (has_char c s) eqn:Hs.
  - destruct (IH eq_refl) as (pre & suf & -> & Hsuf).
    exists (String a pre), suf. split; [reflexivity | exact Hsuf].
  - rewrite orb_false_r in H. apply Ascii.eqb_eq in H. subst a.
    exists EmptyString, s. split; [reflexivity | exact Hs].
Qed.

(** X1. Names that differ only in the case of their letters have the same
    extension, and so pass or fail the check of [uploadDocument]
    together. *)
Theorem getExt_case_insensitive n1 n2 :
  toLowerCase n1 = toLowerCase n2 ->
  getExt n1 = getExt n2 /\
  ALLOWED_has (getExt n1) = ALLOWED_has (getExt n2).
Proof.
  intros Heq.
  assert (H : getExt n1 = getExt n2)
    by (rewrite <- (getExt_lower n1), <- (getExt_lower n2); now rewrite Heq).
  split; [exact H | now rewrite H].
Qed.

Lemma getExt_case_insensitive_witness :
  getExt "Final.Report.PDF" = getExt "final.report.pdf" /\
  ALLOWED_has (getExt "Final.Report.PDF") = ALLOWED_has (getExt "final.report.pdf").
Proof.
  apply (getExt_case_insensitive "Final.Report.PDF" "final.report.pdf"). reflexivity.
Defined.

(** X2. The extension of any name is either empty, exactly when the name
    has no dot, or the text from the last dot of the name on, lower-cased:
    a dot followed by a lower-case string without a dot. Taking the
    extension of an extension changes nothing. *)
Theorem getExt_shape name :
  ((has_char "." name = false /\ getExt name = EmptyString) \/
   (exists pre suf,
       name = pre +:+ String "." suf /\
       has_char "." suf = false /\
       getExt name = String "." (toLowerCase suf))) /\
  toLowerCase (getExt name) = getExt name /\
  getExt (getExt name) = getExt name.
Proof.
  destruct (has_char "." name) eqn:Hdot.
  - destruct (has_char_split _ _ Hdot) as (pre & suf & -> & Hsuf).
    rewrite (getExt_last_dot pre suf Hsuf).
    split; [right; exists pre, suf; auto|]. split.
    + simpl. now rewrite toLowerCase_idem.
    + change (String "." (toLowerCase suf))
        with (EmptyString +:+ String "." (toLowerCase suf)) at 1.
      rewrite getExt_last_dot by (now rewrite has_char_dot_lower).
      now rewrite toLowerCase_idem.
  - rewrite (getExt_no_dot name Hdot). split; [left; auto|]. split; reflexivity.
Qed.

End GetExtFacts.

(** ** Every path of [uploadDocument] *)

Module UploadPaths.
Import JsString UploadTypes Upload UploadFacts.

(** The four ways a call can go, each with its whole trace. *)
Lemma uploadDocument_paths env data :
  (ALLOWED_has (getExt (name (file data))) = false /\
   uploadDocument data env = (Return invalid_type, [])) \/
  (ALLOWED_has (getExt (name (file data))) = true /\ no_credential env /\
   uploadDocument data env = (Throw no_token, [GetItem "access_token"])) \/
  (exists tok response,
      ALLOWED_has (getExt (name (file data))) = true /\
      sessionStorage env !! "access_token" = Some tok /\ truthy tok = true /\
      axiosInstance_post env (upload_request data tok) = Return response /\
      uploadDocument data env =
        (Return (Axios.data response),
         [GetItem "access_token"; Post (upload_request data tok)])) \/
  (exists tok error,
      ALLOWED_has (getExt (name (file data))) = true /\
      sessionStorage env !! "access_token" = Some tok /\ truthy tok = true /\
      axiosInstance_post env (upload_request data tok) = Throw error /\
      uploadDocument data env =
        (caught env error,
         [GetItem "access_token"; Post (upload_request data tok);
          ConsoleError "Upload error:" error])).
Proof.
  destruct (ALLOWED_has (getExt (name (file data)))) eqn:Hext.
  - right. destruct (sessionStorage env !! "access_token") as [tok|] eqn:Hsome.
    + destruct (truthy tok) eqn:Htok.
      * right. pose proof (uploadDocument_posts env data tok Hext Hsome Htok) as Hup.
        destruct (axiosInstance_post env (upload_request data tok))
          as [response|error] eqn:Hpost.
        -- left. exists tok, response. auto.
        -- right. exists tok, error. auto.
      * left. assert (Hcred : no_credential env)
          by (unfold no_credential; now rewrite Hsome).
        split; [reflexivity|]. split; [exact Hcred|].
        now apply uploadDocument_no_token.
    + left. assert (Hcred : no_credential env)
        by (unfold no_credential; now rewrite Hsome).
      split; [reflexivity|]. split; [exact Hcred|].
      now apply uploadDocument_no_token.
  - left. split; [reflexivity|]. now apply uploadDocument_bad_ext.
Qed.

(** X4. A call makes at most one HTTP request and reads the session
    storage at most once. Every request it makes goes to [/rag/upload],
    for a name that passed the extension check, right after the lookup of
    a stored, non-empty token, and carries that token as
    [Authorization: Bearer] header. *)
Theorem uploadDocument_request_discipline env data :
  (network_calls (snd (uploadDocument data env)) <= 1)%nat /\
  (credential_lookups (snd (uploadDocument data env)) <= 1)%nat /\
  forall req,
    In (Post req) (snd (uploadDocument data env)) ->
    ALLOWED_has (getExt (name (file data))) = true /\
    Axios.url req = "/rag/upload" /\
    exists tok rest,
      sessionStorage env !! "access_token" = Some tok /\
      truthy tok = true /\
      Axios.headers req = [("Authorization", "Bearer " +:+ tok);
                           ("Content-Type", "multipart/form-data")] /\
      Axios.body req = createUploadFormData data /\
      snd (uploadDocument data env) = GetItem "access_token" :: Post req :: rest.
Proof.
  destruct (uploadDocument_paths env data)
    as [(_ & Hup)|[(Hext & Hcred & Hup)|[(tok & r & Hext & Hsome & Htok & _ & Hup)
       |(tok & err & Hext & Hsome & Htok & _ & Hup)]]];
    rewrite Hup; unfold network_calls, credential_lookups; simpl;
    (split; [lia|]); (split; [lia|]); intros req Hin.
  - destruct Hin.
  - destruct Hin as [Hin|[]]. discriminate Hin.
  - destruct Hin as [Hin|[Hin|[]]]; [discriminate Hin|].
    injection Hin as <-. split; [exact Hext|]. split; [reflexivity|].
    exists tok, []. auto.
  - destruct Hin as [Hin|[Hin|[Hin|[]]]]; [discriminate Hin| |discriminate Hin].
    injection Hin as <-. split; [exact Hext|]. split; [reflexivity|].
    exists tok, [ConsoleError "Upload error:" err]. auto.
Qed.

Lemma uploadDocument_request_discipline_witness :
  ALLOWED_has (getExt (name (file (Samples.upload_of "report.Docx")))) = true /\
  Axios.url (upload_request (Samples.upload_of "report.Docx") "abc") = "/rag/upload" /\
  exists tok rest,
    sessionStorage Samples.env_token !! "access_token" = Some tok /\
    truthy tok = true /\
    Axios.headers (upload_request (Samples.upload_of "report.Docx") "abc")
      = [("Authorization", "Bearer " +:+ tok);
         ("Content-Type", "multipart/form-data")] /\
    Axios.body (upload_request (Samples.upload_of "report.Docx") "abc")
      = createUploadFormData (Samples.upload_of "report.Docx") /\
    snd (uploadDocument (Samples.upload_of "report.Docx") Samples.env_token)
      = GetItem "access_token"
          :: Post (upload_request (Samples.upload_of "report.Docx") "abc") :: rest.
Proof.
  destruct (uploadDocument_request_discipline Samples.env_token
              (Samples.upload_of "report.Docx")) as (_ & _ & Hreq).
  apply Hreq. right. left. reflexivity.
Defined.

(** X18. The check of [uploadDocument] accepts an extension exactly when
    the type [allowedExt] names it and it is not [.pptx]: the two lists
    differ in [.pptx] and in nothing else. *)
Theorem ALLOWED_versus_allowedExt ext :
  ALLOWED_has ext = true <-> (In ext allowedExt /\ ext <> ".pptx").
Proof.
  rewrite ALLOWED_has_true. unfold allowedExt. simpl. split.
  - intros [-> | [-> | ->]]; (split; [tauto | discriminate]).
  - intros [[<- | [<- | [<- | [<- | []]]]] Hne]; auto. contradiction.
Qed.

End UploadPaths.

(** ** What the upload form shows *)

Module SubmitFacts.
Import JsString UploadFacts UploadPaths AdminUploadPage AdminUploadPageFacts.
Import Upload.

Lemma range_cases st : bad_range st \/ good_range st.
Proof.
  unfold bad_range, good_range.
  destruct (Z.lt_ge_cases (startPage st) 1) as [Hlt|Hge]; [now left; left|].
  destruct (endPage st) as [e|].
  - destruct (Z.lt_ge_cases e (startPage st)) as [Hlt|Hle].
    + left. right. now exists e.
    + right. split; [exact Hge|]. intros e' [= <-]. exact Hle.
  - right. split; [exact Hge|]. intros e' [=].
Qed.

(** The outcome of an accepted submission, in terms of [upload_argument]. *)
Lemma handleSubmit_runs_upload env st f :
  file st = Some f -> good_range st ->
  exists st',
    handleSubmit st env =
      (Return st',
       Invoke_uploadDocument (upload_argument f st)
         :: snd (Upload.uploadDocument (upload_argument f st) env)) /\
    submitting st' = false /\
    match fst (Upload.uploadDocument (upload_argument f st) env) with
    | Return (UploadTypes.response_body m) =>
        variant st' = variant_success /\
        message st' = nullish_or m "Upload completed."
    | Return UploadTypes.response_absent =>
        variant st' = variant_error /\ message st' = type_error_text env
    | Throw err =>
        variant st' = variant_error /\
        message st' = nullish_or (thrown_message err) "Unexpected error during upload."
    end.
Proof.
  intros Hf [Hsp Hep]. exact (handleSubmit_accepted env st f Hf Hsp Hep).
Qed.

(** X5. [handleSubmit] never throws. The state it ends in keeps the file,
    the page range and the topic of the form, shows an outcome (the
    success or the error variant, never the empty one), and no longer
    has [submitting] set once the local checks have passed. *)
Theorem handleSubmit_always_settles env st :
  exists st',
    fst (handleSubmit st env) = Return st' /\
    file st' = file st /\ startPage st' = startPage st /\
    endPage st' = endPage st /\ topic st' = topic st /\
    variant st' <> variant_empty /\
    (((file st = None \/ bad_range st) /\
      variant st' = variant_error /\ submitting st' = submitting st) \/
     ((exists f, file st = Some f) /\ good_range st /\ submitting st' = false)).
Proof.
  destruct st as [f sp ep tp sub msg var].
  destruct (range_cases {| file := f; startPage := sp; endPage := ep; topic := tp;
                           submitting := sub; message := msg; variant := var |})
    as [Hbad|Hgood].
  - assert (Hcheck : match f with
                     | None => true
                     | Some _ => (sp <? 1) || match ep with
                                              | Some e => e <? sp
                                              | None => false
                                              end
                     end = true).
    { destruct f as [f|]; [|reflexivity]. apply orb_true_iff.
      destruct Hbad as [Hlt|(e & He & Hlt)]; simpl in *.
      - left. now apply Z.ltb_lt.
      - right. subst ep. now apply Z.ltb_lt. }
    unfold handleSubmit; simpl.
    destruct f as [f|].
    + apply orb_true_iff in Hcheck.
      destruct (sp <? 1) eqn:Hsp.
      * eexists. split; [reflexivity|]. simpl.
        repeat split; try discriminate. left. auto.
      * destruct Hcheck as [Hc|Hc]; [discriminate Hc|]. rewrite Hc.
        eexists. split; [reflexivity|]. simpl.
        repeat split; try discriminate. left. auto.
    + eexists. split; [reflexivity|]. simpl.
      repeat split; try discriminate. left. auto.
  - destruct f as [f|].
    + pose proof Hgood as [Hsp Hep]. simpl in Hsp, Hep.
      unfold handleSubmit; simpl.
      destruct (Z.ltb_spec sp 1) as [Hlt|_]; [lia|].
      assert (Hrange : match ep with Some e => e <? sp | None => false end = false).
      { destruct ep as [e|]; [|reflexivity]. apply Z.ltb_ge. now apply Hep. }
      rewrite Hrange. unfold mbind, M_bind, try_catch, emit; simpl.
      destruct (Upload.uploadDocument _ env) as [[[|m]|err] t]; simpl;
        (eexists; split; [reflexivity|]); simpl;
        repeat split; try discriminate; right; eauto.
    + unfold handleSubmit; simpl. eexists. split; [reflexivity|]. simpl.
      repeat split; try discriminate. left. auto.
Qed.

(** X6. A submission that passes the local checks with an allowed file
    name but without a stored token ends in the error variant with the
    message [No token found], after one storage lookup and no request. *)
Theorem handleSubmit_missing_token env st f :
  file st = Some f -> good_range st ->
  ALLOWED_has (getExt (name f)) = true ->
  no_credential env ->
  exists st',
    handleSubmit st env =
      (Return st', [Invoke_uploadDocument (upload_argument f st);
                    GetItem "access_token"]) /\
    variant st' = variant_error /\
    message st' = "No token found" /\
    submitting st' = false.
Proof.
  intros Hf Hgood Hext Hcred.
  destruct (handleSubmit_runs_upload env st f Hf Hgood) as (st' & Heq & Hsub & Hshow).
  rewrite (uploadDocument_no_token env (upload_argument f st) Hext Hcred) in Heq, Hshow.
  exists st'. simpl in Hshow. destruct Hshow as [Hv Hm]. auto.
Qed.

Lemma handleSubmit_missing_token_witness :
  exists st',
    handleSubmit (Samples.form_with "doc.pdf" 1 None "general") Samples.env_no_token =
      (Return st',
       [Invoke_uploadDocument
          (upload_argument {| name := "doc.pdf"; blob := [] |}
             (Samples.form_with "doc.pdf" 1 None "general"));
        GetItem "access_token"]) /\
    variant st' = variant_error /\
    message st' = "No token found" /\
    submitting st' = false.
Proof.
  apply (handleSubmit_missing_token Samples.env_no_token
           (Samples.form_with "doc.pdf" 1 None "general")
           {| name := "doc.pdf"; blob := [] |}).
  - reflexivity.
  - split; [simpl; lia | intros e He; discriminate He].
  - reflexivity.
  - unfold no_credential. simpl. exact I.
Defined.

(** X7. A submission that passes the local checks with a file name that
    [uploadDocument] rejects ends in the success variant, showing the
    invalid-file-type text, without any storage lookup or request. *)
Theorem handleSubmit_invalid_type_shown_as_success env st f :
  file st = Some f -> good_range st ->
  ALLOWED_has (getExt (name f)) = false ->
  exists st',
    handleSubmit st env =
      (Return st', [Invoke_uploadDocument (upload_argument f st)]) /\
    variant st' = variant_success /\
    message st' = "Invalid file type. Only PDF, PPT, and DOCX files are allowed." /\
    submitting st' = false.
Proof.
  intros Hf Hgood Hext.
  destruct (handleSubmit_runs_upload env st f Hf Hgood) as (st' & Heq & Hsub & Hshow).
  rewrite (uploadDocument_bad_ext env (upload_argument f st) Hext) in Heq, Hshow.
  exists st'. simpl in Hshow. destruct Hshow as [Hv Hm]. auto.
Qed.

Lemma handleSubmit_invalid_type_shown_as_success_witness :
  exists st',
    handleSubmit (Samples.form_with "slides.pptx" 1 None "general") Samples.env_token =
      (Return st',
       [Invoke_uploadDocument
          (upload_argument {| name := "slides.pptx"; blob := [] |}
             (Samples.form_with "slides.pptx" 1 None "general"))]) /\
    variant st' = variant_success /\
    message st' = "Invalid file type. Only PDF, PPT, and DOCX files are allowed." /\
    submitting st' = false.
Proof.
  apply (handleSubmit_invalid_type_shown_as_success Samples.env_token
           (Samples.form_with "slides.pptx" 1 None "general")
           {| name := "slides.pptx"; blob := [] |}).
  - reflexivity.
  - split; [simpl; lia | intros e He; discriminate He].
  - reflexivity.
Defined.

(** X8. Once a submission has passed the local checks with an allowed file
    name and a stored token, exactly one request is made and [submitting]
    is reset. A reply with a body ends in the success variant, showing its
    message or [Upload completed.] when it has none; a reply without a
    body ends in the error variant. A request rejected with a value other
    than [undefined] and [null] also ends in the success variant, showing
    the message of the error body or [Unexpected error occurred]; one
    rejected with [undefined] or [null] ends in the error variant. *)
Theorem handleSubmit_transfer_outcome env st f tok :
  file st = Some f -> good_range st ->
  ALLOWED_has (getExt (name f)) = true ->
  sessionStorage env !! "access_token" = Some tok -> truthy tok = true ->
  exists st',
    fst (handleSubmit st env) = Return st' /\
    submitting st' = false /\
    network_calls (snd (handleSubmit st env)) = 1%nat /\
    match axiosInstance_post env (upload_request (upload_argument f st) tok) with
    | Return response =>
        match Axios.data response with
        | UploadTypes.response_body m =>
            variant st' = variant_success /\
            message st' = nullish_or m "Upload completed."
        | UploadTypes.response_absent =>
            variant st' = variant_error /\ message st' = type_error_text env
        end
    | Throw (thrown_value e) =>
        variant st' = variant_success /\
        message st' = nullish_or (response_message e) "Unexpected error occurred"
    | Throw thrown_undefined | Throw thrown_null =>
        variant st' = variant_error /\ message st' = type_error_text env
    end.
Proof.
  intros Hf Hgood Hext Hsome Htok.
  destruct (handleSubmit_runs_upload env st f Hf Hgood) as (st' & Heq & Hsub & Hshow).
  rewrite (uploadDocument_posts env (upload_argument f st) tok Hext Hsome Htok)
    in Heq, Hshow.
  exists st'. rewrite Heq.
  destruct (axiosInstance_post env (upload_request (upload_argument f st) tok))
    as [[status [|m]]|[| |e]]; simpl in Hshow |- *; auto.
Qed.

Lemma handleSubmit_transfer_outcome_witness :
  (exists st',
      fst (handleSubmit (Samples.form_with "doc.pdf" 2 (Some 5) "biology") Samples.env_token)
        = Return st' /\
      variant st' = variant_success /\ message st' = "File too large") /\
  (exists st',
      fst (handleSubmit (Samples.form_with "doc.pdf" 2 (Some 5) "biology")
             Samples.env_answering_nothing) = Return st' /\
      variant st' = variant_error /\
      message st' = "Cannot read properties of undefined").
Proof.
  assert (Hgood : good_range (Samples.form_with "doc.pdf" 2 (Some 5) "biology")).
  { split; [simpl; lia|]. intros e He. injection He as <-. simpl. lia. }
  split.
  - destruct (handleSubmit_transfer_outcome Samples.env_token
                (Samples.form_with "doc.pdf" 2 (Some 5) "biology")
                {| name := "doc.pdf"; blob := [] |} "abc"
                eq_refl Hgood eq_refl eq_refl eq_refl) as (st' & Hret & _ & _ & Hshow).
    exists st'. split; [exact Hret | exact Hshow].
  - destruct (handleSubmit_transfer_outcome Samples.env_answering_nothing
                (Samples.form_with "doc.pdf" 2 (Some 5) "biology")
                {| name := "doc.pdf"; blob := [] |} "abc"
                eq_refl Hgood eq_refl eq_refl eq_refl) as (st' & Hret & _ & _ & Hshow).
    exists st'. split; [exact Hret | exact Hshow].
Defined.

(** X9. For page numbers that are safe integers, the request of an
    accepted submission carries the fields of the form as they are: the
    chosen file, the start page as a decimal string,
    the end page only when the form has one, and the topic of the form
    even when it is empty; the defaults of [createUploadFormData] are
    never used. *)
Theorem handleSubmit_posted_body env st f tok :
  file st = Some f -> good_range st -> safe_range st ->
  ALLOWED_has (getExt (name f)) = true ->
  sessionStorage env !! "access_token" = Some tok -> truthy tok = true ->
  exists rest,
    snd (handleSubmit st env) =
      Invoke_uploadDocument (upload_argument f st)
        :: GetItem "access_token"
        :: Post {| Axios.url := "/rag/upload";
                   Axios.body :=
                     ([("file", FileValue f);
                       ("start_page", StringValue (String_of (startPage st)))]
                      ++ match endPage st with
                         | Some e => [("end_page", StringValue (String_of e))]
                         | None => []
                         end
                      ++ [("topic", StringValue (topic st))])%list;
                   Axios.headers :=
                     [("Authorization", "Bearer " +:+ tok);
                      ("Content-Type", "multipart/form-data")] |}
        :: rest.
Proof.
  intros Hf Hgood _ Hext Hsome Htok.
  destruct (handleSubmit_runs_upload env st f Hf Hgood) as (st' & Heq & _).
  rewrite (uploadDocument_posts env (upload_argument f st) tok Hext Hsome Htok) in Heq.
  rewrite Heq.
  assert (Hreq : upload_request (upload_argument f st) tok =
                 {| Axios.url := "/rag/upload";
                    Axios.body :=
                      ([("file", FileValue f);
                        ("start_page", StringValue (String_of (startPage st)))]
                       ++ match endPage st with
                          | Some e => [("end_page", StringValue (String_of e))]
                          | None => []
                          end
                       ++ [("topic", StringValue (topic st))])%list;
                    Axios.headers :=
                      [("Authorization", "Bearer " +:+ tok);
                       ("Content-Type", "multipart/form-data")] |}).
  { unfold upload_request, createUploadFormData, upload_argument. simpl.
    destruct (endPage st); reflexivity. }
  rewrite <- Hreq.
  destruct (axiosInstance_post env (upload_request (upload_argument f st) tok));
    simpl; eexists; reflexivity.
Qed.

Lemma handleSubmit_posted_body_witness :
  exists rest,
    snd (handleSubmit (Samples.form_with "doc.pdf" 2 None EmptyString) Samples.env_accepting) =
      Invoke_uploadDocument
        (upload_argument {| name := "doc.pdf"; blob := [] |}
           (Samples.form_with "doc.pdf" 2 None EmptyString))
        :: GetItem "access_token"
        :: Post {| Axios.url := "/rag/upload";
                   Axios.body :=
                     [("file", FileValue {| name := "doc.pdf"; blob := [] |});
                      ("start_page", StringValue "2");
                      ("topic", StringValue EmptyString)];
                   Axios.headers :=
                     [("Authorization", "Bearer abc");
                      ("Content-Type", "multipart/form-data")] |}
        :: rest.
Proof.
  apply (handleSubmit_posted_body Samples.env_accepting
           (Samples.form_with "doc.pdf" 2 None EmptyString)
           {| name := "doc.pdf"; blob := [] |} "abc").
  - reflexivity.
  - split; [simpl; lia | intros e He; discriminate He].
  - split; [unfold JsString.safe_integer; simpl; lia | intros e He; discriminate He].
  - reflexivity.
  - reflexivity.
  - reflexivity.
Defined.

(** X10. One submission invokes [uploadDocument] at most once and makes at
    most one request; a request is made only for a form with a file, a
    page range that passes the checks, an allowed file name and a stored,
    non-empty token. *)
Theorem handleSubmit_request_guard env st :
  (length (upload_invocations (snd (handleSubmit st env))) <= 1)%nat /\
  (network_calls (snd (handleSubmit st env)) <= 1)%nat /\
  (network_calls (snd (handleSubmit st env)) = 1%nat ->
   exists f tok,
     file st = Some f /\ good_range st /\
     ALLOWED_has (getExt (name f)) = true /\
     sessionStorage env !! "access_token" = Some tok /\ truthy tok = true).
Proof.
  destruct (range_cases st) as [Hbad|Hgood].
  - destruct (handleSubmit_rejected env st (or_intror Hbad)) as (st' & Heq & _).
    rewrite Heq. unfold upload_invocations, network_calls. simpl.
    split; [lia|]. split; [lia | discriminate].
  - destruct (file st) as [f|] eqn:Hf.
    + destruct (handleSubmit_runs_upload env st f Hf Hgood) as (st' & Heq & _).
      rewrite Heq.
      destruct (uploadDocument_paths env (upload_argument f st))
        as [(_ & Hup)|[(Hext & Hcred & Hup)|[(tok & r & Hext & Hsome & Htok & _ & Hup)
           |(tok & err & Hext & Hsome & Htok & _ & Hup)]]];
        rewrite Hup; unfold upload_invocations, network_calls; simpl;
        (split; [lia|]); (split; [lia|]); try discriminate;
        intros _; exists f, tok; auto.
    + destruct (handleSubmit_rejected env st (or_introl Hf)) as (st' & Heq & _).
      rewrite Heq. unfold upload_invocations, network_calls. simpl.
    split; [lia|]. split; [lia | discriminate].
Qed.

Lemma handleSubmit_request_guard_witness :
  exists f tok,
    file (Samples.form_with "doc.pdf" 1 None "general") = Some f /\
    good_range (Samples.form_with "doc.pdf" 1 None "general") /\
    ALLOWED_has (getExt (name f)) = true /\
    sessionStorage Samples.env_accepting !! "access_token" = Some tok /\
    truthy tok = true.
Proof.
  destruct (handleSubmit_request_guard Samples.env_accepting
              (Samples.form_with "doc.pdf" 1 None "general")) as (_ & _ & Hguard).
  apply Hguard. reflexivity.
Defined.

End SubmitFacts.

(** ** The message endpoints *)

Module EndpointFacts.
Import MessageApi MessageApiFacts.

(** X11. [createMessage] reports nothing before all three calls have
    completed: as long as one of them is pending there is no result, not
    even the error of a call that has already failed. *)
Theorem createMessage_waits_for_all (baseQuery : BaseQuery) order body i :
  (i < 3)%nat -> i ∉ order ->
  createMessage_queryFn baseQuery order body = None.
Proof.
  intros Hlt Hnin. unfold createMessage_queryFn.
  rewrite (Promise_all_pending (baseQuery <$> createMessage_requests body) order i);
    [reflexivity | exact Hlt | exact Hnin].
Qed.

Lemma createMessage_waits_for_all_witness :
  createMessage_queryFn Samples.all_fail [0; 1]%nat (Samples.hello "user") = None.
Proof.
  apply (createMessage_waits_for_all Samples.all_fail [0; 1]%nat (Samples.hello "user") 2).
  - lia.
  - rewrite !elem_of_cons, elem_of_nil. lia.
Defined.

(** X12. Once the three calls have completed, the outcome of
    [createMessage] is the same for every completion order. When it is a
    [CreateAllResult], none of the three calls failed and each of its
    three messages is the translation of the response of its own route;
    when it is an error, it is the first error in the order rag, raw,
    rawModel. *)
Theorem createMessage_all_or_nothing (baseQuery : BaseQuery) o1 o2 body :
  o1 ≡ₚ [0; 1; 2]%nat -> o2 ≡ₚ [0; 1; 2]%nat ->
  createMessage_queryFn baseQuery o1 body = createMessage_queryFn baseQuery o2 body /\
  (forall d,
      createMessage_queryFn baseQuery o1 body = Some (Data d) ->
      first_error (baseQuery <$> createMessage_requests body) = None /\
      exists r1 r2 r3,
        baseQuery <$> createMessage_requests body = [Data r1; Data r2; Data r3] /\
        rag d = toMessage r1 /\ raw d = toMessage r2 /\ rawModel d = toMessage r3) /\
  (forall e,
      createMessage_queryFn baseQuery o1 body = Some (Error e) ->
      first_error (baseQuery <$> createMessage_requests body) = Some e).
Proof.
  intros H1 H2.
  rewrite (createMessage_queryFn_joined baseQuery o1 body H1).
  rewrite (createMessage_queryFn_joined baseQuery o2 body H2).
  split; [reflexivity|].
  unfold createMessage_requests, first_error. csimpl.
  destruct (baseQuery _) as [r1|e1]; csimpl.
  2: { split; [intros d [=] | intros e [= <-]; reflexivity]. }
  destruct (baseQuery _) as [r2|e2]; csimpl.
  2: { split; [intros d [=] | intros e [= <-]; reflexivity]. }
  destruct (baseQuery _) as [r3|e3]; csimpl.
  2: { split; [intros d [=] | intros e [= <-]; reflexivity]. }
  split; [|intros e [=]].
  intros d [= <-]. split; [reflexivity|]. exists r1, r2, r3. auto.
Qed.

Lemma createMessage_all_or_nothing_witness :
  createMessage_queryFn Samples.raw_fails [2; 0; 1]%nat (Samples.hello "user")
    = createMessage_queryFn Samples.raw_fails [1; 2; 0]%nat (Samples.hello "user") /\
  first_error (Samples.raw_fails <$> createMessage_requests (Samples.hello "user"))
    = Some (Samples.failure 500 "raw failed") /\
  first_error (Samples.all_ok <$> createMessage_requests (Samples.hello "user")) = None.
Proof.
  assert (Ha : [2; 0; 1]%nat ≡ₚ [0; 1; 2]%nat)
    by apply (Permutation_cons_append [0; 1]%nat 2%nat).
  assert (Hb : [1; 2; 0]%nat ≡ₚ [0; 1; 2]%nat)
    by (symmetry; apply (Permutation_cons_append [1; 2]%nat 0%nat)).
  destruct (createMessage_all_or_nothing Samples.raw_fails [2; 0; 1]%nat [1; 2; 0]%nat
              (Samples.hello "user") Ha Hb) as (Hsame & _ & Herr).
  destruct (createMessage_all_or_nothing Samples.all_ok [2; 0; 1]%nat [1; 2; 0]%nat
              (Samples.hello "user") Ha Hb) as (_ & Hdata & _).
  split; [exact Hsame|]. split.
  - apply Herr. reflexivity.
  - apply (Hdata Samples.created). reflexivity.
Defined.

Lemma all_ok_echoes : echoes Samples.all_ok.
Proof.
  intros args p Hbody. unfold Samples.all_ok. rewrite Hbody.
  eexists. split; [reflexivity|]. simpl. auto.
Qed.

(** X13. Against a backend that stores what it is sent, a created message
    comes back three times with the conversation id and the content of
    the request; its role comes back as [user] if the request said
    [user] and as [ai] for every other role. *)
Theorem createMessage_echo_round_trip (baseQuery : BaseQuery) order body :
  echoes baseQuery -> order ≡ₚ [0; 1; 2]%nat ->
  exists d,
    createMessage_queryFn baseQuery order body = Some (Data d) /\
    Forall (fun m =>
              conversationId m = Simple.conversationId body /\
              content m = Simple.content body /\
              role m = if String.eqb (Simple.role body) "user" then "user" else "ai")
           [rag d; raw d; rawModel d].
Proof.
  intros Hecho Hperm.
  assert (Hone : forall route,
             exists m,
               baseQuery {| url := route; method := "POST";
                            body := Some (createMessage_payload body) |}
                 = Data {| data := m |} /\
               conversationId (toMessage {| data := m |}) = Simple.conversationId body /\
               content (toMessage {| data := m |}) = Simple.content body /\
               role (toMessage {| data := m |})
                 = if String.eqb (Simple.role body) "user" then "user" else "ai").
  { intros route.
    destruct (Hecho {| url := route; method := "POST";
                       body := Some (createMessage_payload body) |}
                (createMessage_payload body) eq_refl) as (m & Hm & Hc & Hs & Ht).
    exists m. split; [exact Hm|]. simpl. rewrite Hc, Hs, Ht. simpl.
    split; [reflexivity|]. split; [reflexivity|]. apply role_read_back. }
  destruct (Hone "/messages/") as (m1 & Hq1 & P1).
  destruct (Hone "/messages/raw/") as (m2 & Hq2 & P2).
  destruct (Hone "/messages/raw-model/") as (m3 & Hq3 & P3).
  eexists. split.
  - apply (createMessage_all_succeed baseQuery order body
             {| data := m1 |} {| data := m2 |} {| data := m3 |} Hperm).
    unfold createMessage_requests. csimpl. now rewrite Hq1, Hq2, Hq3.
  - simpl. repeat constructor; tauto.
Qed.

Lemma createMessage_echo_round_trip_witness :
  exists d,
    createMessage_queryFn Samples.all_ok [1; 2; 0]%nat (Samples.hello "assistant")
      = Some (Data d) /\
    Forall (fun m =>
              conversationId m = "c1" /\ content m = "hello" /\ role m = "ai")
           [rag d; raw d; rawModel d].
Proof.
  apply (createMessage_echo_round_trip Samples.all_ok [1; 2; 0]%nat
           (Samples.hello "assistant")).
  - exact all_ok_echoes.
  - symmetry. apply (Permutation_cons_append [1; 2]%nat 0%nat).
Defined.

(** X14. Every message the three readers produce has the role [user] or
    [ai], and it is [user] exactly when the sender type on the wire is
    the string [User], letter for letter. *)
Theorem readers_role_range (msg : Wire.Message) (msgs : list Wire.Message) :
  (role (toMessage {| data := msg |}) = "user" \/
   role (toMessage {| data := msg |}) = "ai") /\
  (role (toMessage {| data := msg |}) = "user" <-> Wire.sender_type msg = "User") /\
  role (getMessage_transformResponse {| data := msg |})
    = role (toMessage {| data := msg |}) /\
  Forall (fun m => role m = "user" \/ role m = "ai")
         (getMessages_transformResponse {| data := msgs |}) /\
  role <$> getMessages_transformResponse {| data := msgs |}
    = (fun w => role (toMessage {| data := w |})) <$> msgs.
Proof.
  assert (Hrange : forall w, role (message_of_wire w) = "user" \/
                             role (message_of_wire w) = "ai").
  { intros w. simpl. unfold role_of_wire.
    destruct (String.eqb (Wire.sender_type w) "User"); auto. }
  split; [apply Hrange|]. split.
  - simpl. unfold role_of_wire.
    destruct (String.eqb_spec (Wire.sender_type msg) "User") as [Heq|Hne].
    + tauto.
    + split; [discriminate | contradiction].
  - split; [reflexivity|]. split.
    + unfold getMessages_transformResponse. simpl.
      apply Forall_fmap. apply Forall_forall. intros w _. apply Hrange.
    + unfold getMessages_transformResponse. simpl.
      rewrite <- list_fmap_compose. reflexivity.
Qed.

(** X15. Roles are stable under re-sending: a role read from the wire,
    written back and read again is unchanged, and so is a sender type
    written, read and written again. *)
Theorem role_resend_stable (w r : string) :
  role_of_wire (wire_of_role (role_of_wire w)) = role_of_wire w /\
  wire_of_role (role_of_wire (wire_of_role r)) = wire_of_role r.
Proof.
  unfold role_of_wire, wire_of_role. split.
  - destruct (String.eqb w "User"); reflexivity.
  - destruct (String.eqb r "user"); reflexivity.
Qed.

(** X16. [prepareHeaders] reads the token once and makes no request.
    Without a token, or with an empty one, it hands the headers back
    untouched and does not throw, whatever [set] would do; with a token it
    is the result of setting [Authorization] to [Bearer] and the token. *)
Theorem prepareHeaders_token {Headers : Type}
    (Headers_set : Headers -> string -> string -> Completion Headers)
    (headers : Headers) env :
  snd (prepareHeaders Headers_set headers env) = [GetItem "access_token"] /\
  (Upload.no_credential env ->
   fst (prepareHeaders Headers_set headers env) = Return headers) /\
  (forall tok,
      sessionStorage env !! "access_token" = Some tok ->
      JsString.truthy tok = true ->
      fst (prepareHeaders Headers_set headers env)
        = Headers_set headers "Authorization" ("Bearer " +:+ tok)).
Proof.
  unfold prepareHeaders, Upload.no_credential, mbind, M_bind, getItem, completes.
  destruct (sessionStorage env !! "access_token") as [tok|]; simpl.
  - destruct (JsString.truthy tok) eqn:Htok; simpl.
    + split; [reflexivity|]. split; [discriminate|].
      intros tok' [= <-] _. reflexivity.
    + split; [reflexivity|]. split; [reflexivity|].
      intros tok' [= <-] Ht. rewrite Htok in Ht. discriminate Ht.
  - split; [reflexivity|]. split; [reflexivity|]. intros tok' [=].
Qed.

Lemma prepareHeaders_token_witness :
  fst (prepareHeaders Samples.set_pair [("accept", "*/*")] Samples.env_no_token)
    = Return [("accept", "*/*")] /\
  fst (prepareHeaders Samples.set_pair [("accept", "*/*")] Samples.env_token)
    = Return [("Authorization", "Bearer abc"); ("accept", "*/*")].
Proof.
  split.
  - destruct (prepareHeaders_token Samples.set_pair [("accept", "*/*")]
                Samples.env_no_token) as (_ & Hnone & _).
    apply Hnone. unfold Upload.no_credential. simpl. exact I.
  - destruct (prepareHeaders_token Samples.set_pair [("accept", "*/*")]
                Samples.env_token) as (_ & _ & Hset).
    apply (Hset "abc"); reflexivity.
Defined.

Lemma string_app_inv_tail (s s' t : string) : s +:+ t = s' +:+ t -> s = s'.
Proof.
  revert s'. induction s as [|a s IH]; intros [|a' s'] H.
  - reflexivity.
  - apply (f_equal String.length) in H.
    rewrite !JsStringFacts.length_app_string in H. simpl in H. lia.
  - apply (f_equal String.length) in H.
    rewrite !JsStringFacts.length_app_string in H. simpl in H. lia.
  - cbn in H. injection H as -> H. f_equal. now apply IH.
Qed.

(** X17. Each endpoint sends different identifiers to different URLs. The
    identifier is spliced into the path as it is, so an identifier that
    contains a slash can reach the URL of another endpoint: the messages
    of conversation [c/ids] are requested at the URL of the message ids
    of [c], and the message [conversation/c] at the URL of the messages
    of [c]. Deleting and reading a message use the same URL. *)
Theorem query_urls :
  (forall a b, getMessage_query a = getMessage_query b -> a = b) /\
  (forall a b, deleteMessage_query a = deleteMessage_query b -> a = b) /\
  (forall a b, getMessages_query a = getMessages_query b -> a = b) /\
  (forall a b, getMessageIds_query a = getMessageIds_query b -> a = b) /\
  (forall c, getMessages_query (c +:+ "/ids") = getMessageIds_query c) /\
  (forall c, getMessage_query ("conversation/" +:+ c) = getMessages_query c) /\
  (forall m, url (deleteMessage_query m) = url (getMessage_query m)).
Proof.
  repeat split.
  - intros a b [= H]. exact H.
  - intros a b [= H]. exact H.
  - intros a b [= H]. exact H.
  - intros a b [= H]. change (a +:+ "/ids" = b +:+ "/ids") in H.
    now apply string_app_inv_tail in H.
Qed.

Lemma query_urls_witness :
  "m1" = "m1" /\ "c1" = "c1".
Proof.
  destruct query_urls as (Hget & _ & _ & Hids & _).
  split.
  - apply Hget. reflexivity.
  - apply Hids. reflexivity.
Defined.

End EndpointFacts.
